(** * scripts/release.go: the release-asset uploader

    A shallow embedding of [scripts/release.go] and of the parts of the Go
    standard library it calls ([strings], [path], [path/filepath],
    [net/url], [net/http], [os]), followed by the properties of the
    program.

    Go strings are byte sequences: they are modelled by [string], whose
    characters are the 256 values of [ascii].  Go's [int] results are in
    [Z].  A Go [error] is [option string] (the text of [err.Error()],
    [None] for [nil]); a Go pair [(T, error)] is [result T]. *)

From Stdlib Require Import ZArith NArith Ascii Lia Bool.
From Stdlib Require String.
From stdpp Require Import base option list strings gmap sorting.

Local Open Scope Z_scope.

(** ** Errors and results *)

Definition error := option string.

Inductive result (A : Type) : Type :=
| Ok (a : A)
| Err (msg : string).
Arguments Ok {A} a.
Arguments Err {A} msg.

(** ** Bytes *)

Definition byte_val (c : ascii) : N := N_of_ascii c.

Definition byte_in (lo hi c : ascii) : bool :=
  ((byte_val lo <=? byte_val c) && (byte_val c <=? byte_val hi))%N.

Definition is_lower (c : ascii) : bool := byte_in "a" "z" c.
Definition is_upper (c : ascii) : bool := byte_in "A" "Z" c.
Definition is_digit (c : ascii) : bool := byte_in "0" "9" c.
Definition is_alnum (c : ascii) : bool := is_lower c || is_upper c || is_digit c.

(** The byte [0x22], the double quote. *)
Definition dquote : ascii := ascii_of_N 34.

Fixpoint mem_byte (c : ascii) (set : string) : bool :=
  match set with
  | EmptyString => false
  | String d set' => Ascii.eqb c d || mem_byte c set'
  end.

(** ** Package [strings] and string slicing *)

Module StringsPkg.

Definition len (s : string) : Z := Z.of_nat (String.length s).

Fixpoint take (n : nat) (s : string) : string :=
  match n, s with
  | O, _ => ""
  | S _, EmptyString => ""
  | S n', String a s' => String a (take n' s')
  end.

Fixpoint drop (n : nat) (s : string) : string :=
  match n, s with
  | O, _ => s
  | S _, EmptyString => ""
  | S n', String _ s' => drop n' s'
  end.

(** [s[:i]] and [s[i:]]; the program only slices within bounds. *)
Definition slice_to (s : string) (i : Z) : string := take (Z.to_nat i) s.
Definition slice_from (s : string) (i : Z) : string := drop (Z.to_nat i) s.

Fixpoint HasPrefix (s prefix : string) : bool :=
  match prefix, s with
  | EmptyString, _ => true
  | String _ _, EmptyString => false
  | String b p', String a s' => Ascii.eqb a b && HasPrefix s' p'
  end.

(** [len(s) >= len(suffix) && s[len(s)-len(suffix):] == suffix] *)
Definition HasSuffix (s suffix : string) : bool :=
  (len suffix <=? len s)
  && String.eqb (slice_from s (len s - len suffix)) suffix.

Fixpoint index_nat (s substr : string) : option nat :=
  if HasPrefix s substr then Some O
  else match s with
       | EmptyString => None
       | String _ s' => S <$> index_nat s' substr
       end.

(** Index of the first instance of [substr] in [s], or [-1]. *)
Definition Index (s substr : string) : Z :=
  match index_nat s substr with
  | Some n => Z.of_nat n
  | None => -1
  end.

Fixpoint last_index_nat (s substr : string) : option nat :=
  match s with
  | EmptyString => if HasPrefix s substr then Some O else None
  | String _ s' =>
      match last_index_nat s' substr with
      | Some n => Some (S n)
      | None => if HasPrefix s substr then Some O else None
      end
  end.

Definition LastIndex (s substr : string) : Z :=
  match last_index_nat s substr with
  | Some n => Z.of_nat n
  | None => -1
  end.

Definition Contains (s substr : string) : bool := 0 <=? Index s substr.

(** [strings.Count] for a separator of one byte. *)
Fixpoint CountByte (s : string) (c : ascii) : Z :=
  match s with
  | EmptyString => 0
  | String a s' => (if Ascii.eqb a c then 1 else 0) + CountByte s' c
  end.

Definition TrimPrefix (s prefix : string) : string :=
  if HasPrefix s prefix then slice_from s (len prefix) else s.

Definition TrimSuffix (s suffix : string) : string :=
  if HasSuffix s suffix then slice_to s (len s - len suffix) else s.

(** [strings.Split] for a separator of one byte: always at least one
    piece. *)
Fixpoint SplitByte (s : string) (sep : ascii) : list string :=
  match s with
  | EmptyString => [""]
  | String a s' =>
      if Ascii.eqb a sep then "" :: SplitByte s' sep
      else match SplitByte s' sep with
           | [] => [String a ""]
           | p :: ps => String a p :: ps
           end
  end.

Fixpoint Join (elems : list string) (sep : string) : string :=
  match elems with
  | [] => ""
  | [e] => e
  | e :: es => e +:+ sep +:+ Join es sep
  end.

Definition lower_byte (c : ascii) : ascii :=
  if is_upper c then ascii_of_N (byte_val c + 32) else c.

(** [strings.ToLower] on ASCII letters (the only letters a URL scheme
    can hold). *)
Fixpoint ToLower (s : string) : string :=
  match s with
  | EmptyString => ""
  | String a s' => String (lower_byte a) (ToLower s')
  end.

End StringsPkg.

(** ** Package [path] (and [path/filepath] on Unix, separator [/]) *)

Module PathPkg.
Import StringsPkg.

(** The output buffer of [Clean], as the stack of the elements written
    so far (innermost last). [Clean] reads its argument one
    slash-separated element at a time: an empty element or [.] is
    skipped, [..] removes the last element written when there is one
    that is not itself [..], and is otherwise dropped (rooted path) or
    written (relative path). *)
Definition clean_step (rooted : bool) (out : list string) (elem : string)
  : list string :=
  if String.eqb elem "" then out
  else if String.eqb elem "." then out
  else if String.eqb elem ".." then
    match rev out with
    | [] => if rooted then out else [".."]
    | last :: _ =>
        if String.eqb last ".." then out ++ [".."] else removelast out
    end
  else out ++ [elem].

Definition Clean (path : string) : string :=
  match path with
  | EmptyString => "."
  | String c rest =>
      let rooted := Ascii.eqb c "/" in
      let out := fold_left (clean_step rooted) (SplitByte path "/") [] in
      if rooted then "/" +:+ Join out "/"
      else match out with
           | [] => "."
           | _ => Join out "/"
           end
  end.

(** [Join] ignores leading empty elements, joins the rest with [/] and
    cleans the result; all elements empty gives the empty string. *)
Fixpoint Join (elem : list string) : string :=
  match elem with
  | [] => ""
  | e :: es =>
      if String.eqb e "" then Join es
      else Clean (StringsPkg.Join elem "/")
  end.

Fixpoint strip_trailing_slashes_rev (r : list ascii) : list ascii :=
  match r with
  | c :: r' => if Ascii.eqb c "/" then strip_trailing_slashes_rev r' else r
  | [] => []
  end.

Definition strip_trailing_slashes (s : string) : string :=
  String.string_of_list_ascii
    (rev (strip_trailing_slashes_rev (rev (String.list_ascii_of_string s)))).

(** [Base]: the last element of the path, trailing slashes removed;
    [.] for the empty path and [/] for a path of slashes only. *)
Definition Base (path : string) : string :=
  if String.eqb path "" then "."
  else
    let p := strip_trailing_slashes path in
    let p := match last_index_nat p "/" with
             | Some i => drop (S i) p
             | None => p
             end in
    if String.eqb p "" then "/" else p.

End PathPkg.

(** ** Package [net/url] (Go 1.17)

    [Parse], [ResolveReference], [String], [Query] and what they call,
    function by function.  Two simplifications: the text of an error
    quotes its argument between double quotes without the escapes of
    [%q], and [validUserinfo] reads bytes where Go reads runes (the two
    agree, since it rejects every byte above 127). *)

Module URLPkg.
Import StringsPkg.

Inductive encoding : Set :=
| encodePath
| encodePathSegment
| encodeHost
| encodeZone
| encodeUserPassword
| encodeQueryComponent
| encodeFragment.

Definition is_host_mode (mode : encoding) : bool :=
  match mode with encodeHost | encodeZone => true | _ => false end.

Definition is_query_mode (mode : encoding) : bool :=
  match mode with encodeQueryComponent => true | _ => false end.

Record Userinfo : Set := mkUserinfo {
  username : string;
  password : string;
  passwordSet : bool
}.

Record URL : Set := mkURL {
  Scheme : string;
  Opaque : string;
  User : option Userinfo;
  Host : string;
  Path : string;
  RawPath : string;
  ForceQuery : bool;
  RawQuery : string;
  Fragment : string;
  RawFragment : string
}.

Definition ishex (c : ascii) : bool :=
  is_digit c || byte_in "a" "f" c || byte_in "A" "F" c.

Definition unhex (c : ascii) : N :=
  if is_digit c then byte_val c - 48
  else if byte_in "a" "f" c then byte_val c - 97 + 10
  else if byte_in "A" "F" c then byte_val c - 65 + 10
  else 0.

Definition upperhex (n : N) : ascii :=
  match String.get (N.to_nat n) "0123456789ABCDEF" with
  | Some c => c
  | None => "0"%char
  end.

(** Whether byte [c] is escaped when it appears in the part of a URL
    given by [mode] (RFC 3986). *)
Definition shouldEscape (c : ascii) (mode : encoding) : bool :=
  if is_alnum c then false
  else if is_host_mode mode
          && (mem_byte c "!$&'()*+,;=:[]<>" || Ascii.eqb c dquote)
  then false
  else if mem_byte c "-_.~" then false
  else if mem_byte c "$&+,/:;=?@" then
    match mode with
    | encodePath => Ascii.eqb c "?"
    | encodePathSegment => mem_byte c "/;,?"
    | encodeUserPassword => mem_byte c "@/?:"
    | encodeQueryComponent => true
    | encodeFragment => false
    | encodeHost | encodeZone => true
    end
  else if match mode with encodeFragment => mem_byte c "!()*" | _ => false end
  then false
  else true.

Definition quote (s : string) : string :=
  String dquote (s +:+ String dquote "").

Definition hex_byte (h1 h2 : ascii) : ascii :=
  ascii_of_N (unhex h1 * 16 + unhex h2).

(** [unescape]: [%XX] becomes the byte [XX], and [+] a space in a query
    component; a malformed escape, or a byte that a host cannot hold,
    is an error. *)
Fixpoint unescape (s : string) (mode : encoding) : result string :=
  match s with
  | EmptyString => Ok ""
  | String c rest =>
      if Ascii.eqb c "%" then
        match rest with
        | String h1 (String h2 rest') =>
            if negb (ishex h1 && ishex h2) then
              Err ("invalid URL escape " +:+ quote (take 3 s))
            else if match mode with
                    | encodeHost =>
                        (unhex h1 <? 8)%N
                        && negb (String.eqb (take 3 s) "%25")
                    | encodeZone =>
                        negb (String.eqb (take 3 s) "%25")
                        && negb (Ascii.eqb (hex_byte h1 h2) " ")
                        && shouldEscape (hex_byte h1 h2) encodeHost
                    | _ => false
                    end
            then Err ("invalid URL escape " +:+ quote (take 3 s))
            else match unescape rest' mode with
                 | Ok t => Ok (String (hex_byte h1 h2) t)
                 | Err e => Err e
                 end
        | _ => Err ("invalid URL escape " +:+ quote (take 3 s))
        end
      else if is_host_mode mode && (byte_val c <? 128)%N
              && shouldEscape c encodeHost
      then Err ("invalid character " +:+ quote (String c "")
                +:+ " in host name")
      else match unescape rest mode with
           | Ok t =>
               Ok (String (if Ascii.eqb c "+" && is_query_mode mode
                           then " "%char else c) t)
           | Err e => Err e
           end
  end.

Definition escape_byte (c : ascii) (mode : encoding) : string :=
  if Ascii.eqb c " " && is_query_mode mode then "+"
  else if shouldEscape c mode then
    String "%" (String (upperhex (byte_val c / 16))
                  (String (upperhex (byte_val c mod 16)) ""))
  else String c "".

Fixpoint escape (s : string) (mode : encoding) : string :=
  match s with
  | EmptyString => ""
  | String c rest => escape_byte c mode +:+ escape rest mode
  end.

Definition QueryEscape (s : string) : string := escape s encodeQueryComponent.
Definition QueryUnescape (s : string) : result string :=
  unescape s encodeQueryComponent.

Fixpoint validEncoded (s : string) (mode : encoding) : bool :=
  match s with
  | EmptyString => true
  | String c rest =>
      (mem_byte c "!$&'()*+,;=:@[]%" || negb (shouldEscape c mode))
      && validEncoded rest mode
  end.

Fixpoint stringContainsCTLByte (s : string) : bool :=
  match s with
  | EmptyString => false
  | String c rest =>
      (byte_val c <? 32)%N || (byte_val c =? 127)%N
      || stringContainsCTLByte rest
  end.

(** [getScheme]: the scheme and what follows its colon; no scheme when
    the string does not start with one. *)
Fixpoint getScheme_from (i : nat) (rest whole : string)
  : result (string * string) :=
  match rest with
  | EmptyString => Ok ("", whole)
  | String c rest' =>
      if is_lower c || is_upper c then getScheme_from (S i) rest' whole
      else if is_digit c || mem_byte c "+-." then
        if Nat.eqb i 0 then Ok ("", whole)
        else getScheme_from (S i) rest' whole
      else if Ascii.eqb c ":" then
        if Nat.eqb i 0 then Err "missing protocol scheme"
        else Ok (take i whole, rest')
      else Ok ("", whole)
  end.

Definition getScheme (rawURL : string) : result (string * string) :=
  getScheme_from 0 rawURL rawURL.

(** [split(s, sep, cutc)]: cut [s] at the first [sep], which goes to
    neither side ([cutc]) or stays at the head of the second. *)
Definition split (s : string) (sep : ascii) (cutc : bool)
  : string * string :=
  let i := Index s (String sep "") in
  if i <? 0 then (s, "")
  else if cutc then (slice_to s i, slice_from s (i + 1))
  else (slice_to s i, slice_from s i).

Fixpoint all_bytes (p : ascii -> bool) (s : string) : bool :=
  match s with
  | EmptyString => true
  | String c rest => p c && all_bytes p rest
  end.

Definition validOptionalPort (port : string) : bool :=
  match port with
  | EmptyString => true
  | String c digits => Ascii.eqb c ":" && all_bytes is_digit digits
  end.

Definition validUserinfo (s : string) : bool :=
  all_bytes (fun c => is_alnum c || mem_byte c "-._:~!$&'()*+,;=%@") s.

Definition parseHost (host : string) : result string :=
  let plain :=
    unescape host encodeHost in
  if HasPrefix host "[" then
    let i := LastIndex host "]" in
    if i <? 0 then Err "missing ']' in host"
    else
      let colonPort := slice_from host (i + 1) in
      if negb (validOptionalPort colonPort) then
        Err ("invalid port " +:+ quote colonPort +:+ " after host")
      else
        let zone := Index (slice_to host i) "%25" in
        if 0 <=? zone then
          match unescape (slice_to host zone) encodeHost with
          | Err e => Err e
          | Ok host1 =>
              match unescape (slice_to (slice_from host zone) (i - zone))
                      encodeZone with
              | Err e => Err e
              | Ok host2 =>
                  match unescape (slice_from host i) encodeHost with
                  | Err e => Err e
                  | Ok host3 => Ok (host1 +:+ host2 +:+ host3)
                  end
              end
          end
        else plain
  else
    let i := LastIndex host ":" in
    if (0 <=? i) && negb (validOptionalPort (slice_from host i)) then
      Err ("invalid port " +:+ quote (slice_from host i) +:+ " after host")
    else plain.

Definition parseAuthority (authority : string)
  : result (option Userinfo * string) :=
  let i := LastIndex authority "@" in
  match parseHost (if i <? 0 then authority
                   else slice_from authority (i + 1)) with
  | Err e => Err e
  | Ok host =>
      if i <? 0 then Ok (None, host)
      else
        let userinfo := slice_to authority i in
        if negb (validUserinfo userinfo) then Err "net/url: invalid userinfo"
        else if negb (Contains userinfo ":") then
          match unescape userinfo encodeUserPassword with
          | Err e => Err e
          | Ok u => Ok (Some (mkUserinfo u "" false), host)
          end
        else
          let '(username, password) := split userinfo ":" true in
          match unescape username encodeUserPassword with
          | Err e => Err e
          | Ok u =>
              match unescape password encodeUserPassword with
              | Err e => Err e
              | Ok p => Ok (Some (mkUserinfo u p true), host)
              end
          end
  end.

(** [setPath] sets [Path] and [RawPath] from an encoded path; [RawPath]
    stays empty when it is the default encoding of [Path]. *)
Definition setPath (u : URL) (p : string) : result URL :=
  match unescape p encodePath with
  | Err e => Err e
  | Ok path =>
      Ok (mkURL (Scheme u) (Opaque u) (User u) (Host u) path
            (if String.eqb p (escape path encodePath) then "" else p)
            (ForceQuery u) (RawQuery u) (Fragment u) (RawFragment u))
  end.

Definition setFragment (u : URL) (f : string) : result URL :=
  match unescape f encodeFragment with
  | Err e => Err e
  | Ok frag =>
      Ok (mkURL (Scheme u) (Opaque u) (User u) (Host u) (Path u) (RawPath u)
            (ForceQuery u) (RawQuery u) frag
            (if String.eqb f (escape frag encodeFragment) then "" else f))
  end.

(** [parse(rawURL, viaRequest = false)]: a URL without its fragment. *)
Definition parse (rawURL : string) : result URL :=
  if stringContainsCTLByte rawURL then
    Err "net/url: invalid control character in URL"
  else if String.eqb rawURL "*" then
    Ok (mkURL "" "" None "" "*" "" false "" "" "")
  else
    match getScheme rawURL with
    | Err e => Err e
    | Ok (scheme, rest) =>
        let scheme := ToLower scheme in
        let '(rest, forceQuery, rawQuery) :=
          if HasSuffix rest "?" && (CountByte rest "?" =? 1)
          then (slice_to rest (len rest - 1), true, "")
          else let '(r, q) := split rest "?" true in (r, false, q) in
        let url := mkURL scheme "" None "" "" "" forceQuery rawQuery "" "" in
        if negb (HasPrefix rest "/") && negb (String.eqb scheme "") then
          Ok (mkURL scheme rest None "" "" "" forceQuery rawQuery "" "")
        else
          let colon := Index rest ":" in
          let slash := Index rest "/" in
          if negb (HasPrefix rest "/")
             && (0 <=? colon) && ((slash <? 0) || (colon <? slash))
          then Err "first path segment in URL cannot contain colon"
          else if (negb (String.eqb scheme "") || negb (HasPrefix rest "///"))
                  && HasPrefix rest "//"
          then
            let '(authority, rest) := split (slice_from rest 2) "/" false in
            match parseAuthority authority with
            | Err e => Err e
            | Ok (user, host) =>
                setPath (mkURL scheme "" user host "" "" forceQuery rawQuery
                           "" "") rest
            end
          else setPath url rest
    end.

(** [url.Parse]: the text of the error is that of a [url.Error]. *)
Definition Parse (rawURL : string) : result URL :=
  let '(u, frag) := split rawURL "#" true in
  match parse u with
  | Err e => Err ("parse " +:+ quote u +:+ ": " +:+ e)
  | Ok url =>
      if String.eqb frag "" then Ok url
      else match setFragment url frag with
           | Err e => Err ("parse " +:+ quote rawURL +:+ ": " +:+ e)
           | Ok url => Ok url
           end
  end.

Definition EscapedPath (u : URL) : string :=
  if negb (String.eqb (RawPath u) "")
     && validEncoded (RawPath u) encodePath
     && match unescape (RawPath u) encodePath with
        | Ok p => String.eqb p (Path u)
        | Err _ => false
        end
  then RawPath u
  else if String.eqb (Path u) "*" then "*"
  else escape (Path u) encodePath.

Definition EscapedFragment (u : URL) : string :=
  if negb (String.eqb (RawFragment u) "")
     && validEncoded (RawFragment u) encodeFragment
     && match unescape (RawFragment u) encodeFragment with
        | Ok f => String.eqb f (Fragment u)
        | Err _ => false
        end
  then RawFragment u
  else escape (Fragment u) encodeFragment.

Definition Userinfo_String (ui : Userinfo) : string :=
  escape (username ui) encodeUserPassword
  +:+ (if passwordSet ui
       then ":" +:+ escape (password ui) encodeUserPassword else "").

Definition is_Some_b {A} (o : option A) : bool :=
  match o with Some _ => true | None => false end.

Definition nonempty (s : string) : bool := negb (String.eqb s "").

(** [URL.String]: [scheme:opaque?query#fragment] or
    [scheme://userinfo@host/path?query#fragment]. *)
Definition String_ (u : URL) : string :=
  let buf := if nonempty (Scheme u) then Scheme u +:+ ":" else "" in
  let buf :=
    if nonempty (Opaque u) then buf +:+ Opaque u
    else
      let buf :=
        if nonempty (Scheme u) || nonempty (Host u) || is_Some_b (User u)
        then
          buf
          +:+ (if nonempty (Host u) || nonempty (Path u) || is_Some_b (User u)
               then "//" else "")
          +:+ match User u with
              | Some ui => Userinfo_String ui +:+ "@"
              | None => ""
              end
          +:+ (if nonempty (Host u) then escape (Host u) encodeHost else "")
        else buf in
      let path := EscapedPath u in
      let buf :=
        if nonempty path && negb (HasPrefix path "/") && nonempty (Host u)
        then buf +:+ "/" else buf in
      let buf :=
        if String.eqb buf ""
           && (let i := Index path ":" in
               (0 <=? i) && negb (Contains (slice_to path i) "/"))
        then "./" else buf in
      buf +:+ path in
  let buf :=
    if ForceQuery u || nonempty (RawQuery u)
    then buf +:+ "?" +:+ RawQuery u else buf in
  if nonempty (Fragment u) then buf +:+ "#" +:+ EscapedFragment u else buf.

(** [resolvePath]: RFC 3986, 5.2: the reference path merged with the
    base path, dot segments removed. *)
Definition resolve_step (dst : list string) (elem : string) : list string :=
  if String.eqb elem "." then dst
  else if String.eqb elem ".." then removelast dst
  else dst ++ [elem].

Definition resolvePath (base ref : string) : string :=
  let full :=
    if String.eqb ref "" then base
    else if negb (HasPrefix ref "/") then
      slice_to base (LastIndex base "/" + 1) +:+ ref
    else ref in
  if String.eqb full "" then ""
  else
    let src := SplitByte full "/" in
    let dst := fold_left resolve_step src [] in
    let dst :=
      match rev src with
      | last :: _ =>
          if String.eqb last "." || String.eqb last ".." then dst ++ [""]
          else dst
      | [] => dst
      end in
    "/" +:+ TrimPrefix (StringsPkg.Join dst "/") "/".

Definition setPath_ignore (u : URL) (p : string) : URL :=
  match setPath u p with Ok u' => u' | Err _ => u end.

(** [URL.ResolveReference]: [ref] made absolute in the context of
    base [u]. *)
Definition ResolveReference (u ref : URL) : URL :=
  let scheme := if String.eqb (Scheme ref) "" then Scheme u else Scheme ref in
  let url := mkURL scheme (Opaque ref) (User ref) (Host ref) (Path ref)
               (RawPath ref) (ForceQuery ref) (RawQuery ref) (Fragment ref)
               (RawFragment ref) in
  if nonempty (Scheme ref) || nonempty (Host ref) || is_Some_b (User ref)
  then setPath_ignore url (resolvePath (EscapedPath ref) "")
  else if nonempty (Opaque ref) then
    mkURL scheme (Opaque ref) None "" "" (RawPath ref) (ForceQuery ref)
      (RawQuery ref) (Fragment ref) (RawFragment ref)
  else
    let inherit := String.eqb (Path ref) "" && String.eqb (RawQuery ref) "" in
    let inheritFrag := inherit && String.eqb (Fragment ref) "" in
    let url := mkURL scheme (Opaque ref) (User u) (Host u) (Path ref)
                 (RawPath ref) (ForceQuery ref)
                 (if inherit then RawQuery u else RawQuery ref)
                 (if inheritFrag then Fragment u else Fragment ref)
                 (if inheritFrag then RawFragment u else RawFragment ref) in
    setPath_ignore url (resolvePath (EscapedPath u) (EscapedPath ref)).

(** [URL.Parse]: parse [ref] and resolve it against [u]. *)
Definition URL_Parse (u : URL) (ref : string) : result URL :=
  match Parse ref with
  | Err e => Err e
  | Ok refURL => Ok (ResolveReference u refURL)
  end.

End URLPkg.

(** ** [url.Values]: the query parameters, a map from a key to its values *)

Module ValuesPkg.
Import StringsPkg URLPkg.

Definition Get (v : gmap string (list string)) (key : string) : string :=
  match v !! key with
  | Some (x :: _) => x
  | _ => ""
  end.

Definition Set_ (v : gmap string (list string)) (key value : string)
  : gmap string (list string) :=
  <[key := [value]]> v.

Definition Add (v : gmap string (list string)) (key value : string)
  : gmap string (list string) :=
  <[key := default [] (v !! key) ++ [value]]> v.

(** One round of the loop of [parseQuery] on the piece of the query up
    to the next [&]: a piece with a semicolon, an empty piece and a
    piece with a malformed escape are skipped. *)
Definition parse_piece (m : gmap string (list string)) (piece : string)
  : gmap string (list string) :=
  if Contains piece ";" then m
  else if String.eqb piece "" then m
  else
    let '(key, value) := split piece "=" true in
    match QueryUnescape key with
    | Err _ => m
    | Ok key =>
        match QueryUnescape value with
        | Err _ => m
        | Ok value => Add m key value
        end
    end.

(** [ParseQuery], its error dropped as [URL.Query] does. *)
Definition ParseQuery (query : string) : gmap string (list string) :=
  fold_left parse_piece (SplitByte query "&") ∅.

Definition Query (u : URL) : gmap string (list string) :=
  ParseQuery (RawQuery u).

Definition key_le (p q : string * list string) : Prop :=
  String.le p.1 q.1.

Global Instance key_le_dec : RelDecision key_le.
Proof. intros p q. unfold key_le. apply _. Defined.

Definition encode_key (kv : string * list string) : list string :=
  map (fun v => QueryEscape kv.1 +:+ "=" +:+ QueryEscape v) kv.2.

(** [Values.Encode]: [key=value] pairs joined by [&], keys in sorted
    order, both sides query-escaped. *)
Definition Encode (v : gmap string (list string)) : string :=
  StringsPkg.Join
    (concat (map encode_key (merge_sort key_le (map_to_list v)))) "&".

End ValuesPkg.

(** ** Package [net/http], [os] and the world outside the program *)

Record Request : Type := mkRequest {
  Method : string;
  (** the parsed URL, its host without an empty port *)
  URL : URLPkg.URL;
  Header : gmap string (list string);
  (** the body reader given to [NewRequestWithContext], [None] for nil *)
  ReqBody : option string;
  ContentLength : Z;
  (** the file that [GetBody] opens, when [GetBody] is set *)
  GetBody : option string
}.

Record Response : Type := mkResponse {
  StatusCode : Z;
  Status : string;
  (** the bytes that [io.ReadAll(resp.Body)] returns *)
  Body : string
}.

Definition StatusOK : Z := 200.
Definition StatusCreated : Z := 201.

Record DirEntry : Type := mkDirEntry {
  Name : string;
  IsDir : bool
}.

(** What the program does to the world, in the order it does it. *)
Inductive event : Type :=
| EvReadDir (dir : string)
| EvStat (path : string)
| EvDo (req : Request).

(** The world: the process environment, the file system, the server
    (whose answer may depend on all that happened before), and the trace
    of the events so far, oldest first. *)
Record World : Type := mkWorld {
  environ : string -> string;
  file_size : string -> result Z;
  dir_entries : string -> result (list DirEntry);
  server : list event -> Request -> result Response;
  trace : list event
}.

Definition log (e : event) (w : World) : World :=
  mkWorld (environ w) (file_size w) (dir_entries w) (server w) (trace w ++ [e]).

(** Computations on the world. *)
Definition M (A : Type) : Type := World -> A * World.

Definition ret {A} (a : A) : M A := fun w => (a, w).

Definition bind {A B} (m : M A) (k : A -> M B) : M B :=
  fun w => let '(a, w') := m w in k a w'.

Notation "'let*' x ':=' m 'in' k" := (bind m (fun x => k))
  (at level 10, x name, m at level 200, k at level 200).

(** [os.Getenv], [os.Stat(path)] then [Size()], [os.ReadDir]. *)
Definition os_Getenv (w : World) (key : string) : string := environ w key.

Definition os_Stat (path : string) : M (result Z) :=
  fun w => (file_size w path, log (EvStat path) w).

Definition os_ReadDir (dir : string) : M (result (list DirEntry)) :=
  fun w => (dir_entries w dir, log (EvReadDir dir) w).

(** [hasPort] and [removeEmptyPort] of [net/http]: a host that ends in
    an empty port, as [example.com:] does, loses its colon. *)
Definition hasPort (s : string) : bool :=
  StringsPkg.LastIndex s "]" <? StringsPkg.LastIndex s ":".

Definition removeEmptyPort (host : string) : string :=
  if hasPort host then StringsPkg.TrimSuffix host ":" else host.

Definition set_Host (u : URLPkg.URL) (h : string) : URLPkg.URL :=
  URLPkg.mkURL (URLPkg.Scheme u) (URLPkg.Opaque u) (URLPkg.User u) h
    (URLPkg.Path u) (URLPkg.RawPath u) (URLPkg.ForceQuery u)
    (URLPkg.RawQuery u) (URLPkg.Fragment u) (URLPkg.RawFragment u).

(** [http.NewRequestWithContext] with a non-nil context, a valid method
    and a nil body, as the program calls it: it parses the URL, fails
    when that fails, and keeps the parsed URL with its host put through
    [removeEmptyPort]. *)
Definition http_NewRequestWithContext (method url : string) : result Request :=
  match URLPkg.Parse url with
  | Err e => Err e
  | Ok u =>
      Ok (mkRequest method (set_Host u (removeEmptyPort (URLPkg.Host u)))
            ∅ None 0 None)
  end.

(** [Header.Set], for a key in canonical form (as [Authorization],
    [Accept] and [Content-Type] are). *)
Definition Header_Set (req : Request) (key value : string) : Request :=
  mkRequest (Method req) (URL req) (<[key := [value]]> (Header req))
    (ReqBody req) (ContentLength req) (GetBody req).

Definition set_ContentLength (req : Request) (n : Z) : Request :=
  mkRequest (Method req) (URL req) (Header req) (ReqBody req) n (GetBody req).

Definition set_GetBody (req : Request) (path : string) : Request :=
  mkRequest (Method req) (URL req) (Header req) (ReqBody req)
    (ContentLength req) (Some path).

(** [http.DefaultClient.Do]: one exchange with the server, or an error. *)
Definition http_Do (req : Request) : M (result Response) :=
  fun w => (server w (trace w) req, log (EvDo req) w).

(** ** [scripts/release.go] *)

Definition envActions : string := "GITHUB_ACTIONS".
Definition envAPIURL : string := "GITHUB_API_URL".
Definition envRef : string := "GITHUB_REF_NAME".
Definition envRepo : string := "GITHUB_REPOSITORY".
Definition envToken : string := "GITHUB_TOKEN".

Definition envActionsValTrue : string := "true".

Definition contentTypeZIP : string := "application/zip".
Definition contentTypeTARGZ : string := "application/gzip".

Record client : Type := mkClient {
  baseURL : URLPkg.URL;
  repo : string;
  ref : string;
  token : string
}.

Definition set_RawQuery (u : URLPkg.URL) (q : string) : URLPkg.URL :=
  URLPkg.mkURL (URLPkg.Scheme u) (URLPkg.Opaque u) (URLPkg.User u)
    (URLPkg.Host u) (URLPkg.Path u) (URLPkg.RawPath u) (URLPkg.ForceQuery u)
    q (URLPkg.Fragment u) (URLPkg.RawFragment u).

Definition upload (c : client) (uploadURL path contentType : string)
  : M error :=
  let* stat := os_Stat path in
  match stat with
  | Err err => ret (Some ("stat asset: " +:+ err))
  | Ok size =>
      let name := PathPkg.Base path in
      match URLPkg.Parse uploadURL with
      | Err err => ret (Some ("parse url: " +:+ err))
      | Ok u =>
          let q := ValuesPkg.Query u in
          let q := ValuesPkg.Set_ q "name" name in
          let u := set_RawQuery u (ValuesPkg.Encode q) in
          match http_NewRequestWithContext "POST" (URLPkg.String_ u) with
          | Err err => ret (Some ("creating request: " +:+ err))
          | Ok req =>
              let req := Header_Set req "Authorization" ("token: " +:+ token c) in
              let req := Header_Set req "Accept" "application/vnd.github.v3+json" in
              let req := Header_Set req "Content-Type" contentType in
              let req := set_ContentLength req size in
              let req := set_GetBody req path in
              let* resp := http_Do req in
              match resp with
              | Err err => ret (Some ("do request: " +:+ err))
              | Ok resp =>
                  if negb (StatusCode resp =? StatusCreated) then
                    let dump := Body resp in
                    ret (Some ("unexpected status code " +:+ URLPkg.String_ u
                               +:+ ": " +:+ Status resp +:+ ": " +:+ dump))
                  else ret None
              end
          end
      end
  end.

(** The loop of [clientFromEnv] over the required variables. *)
Fixpoint check_present (env : string -> string) (keys : list string) : error :=
  match keys with
  | [] => None
  | key :: keys' =>
      if String.eqb (env key) "" then
        Some ("expected environment variable not present: " +:+ key)
      else check_present env keys'
  end.

Definition clientFromEnv (env : string -> string) : result client :=
  if negb (String.eqb (env envActions) envActionsValTrue) then
    Err "not running under github actions"
  else
    match check_present env [envAPIURL; envRef; envRepo; envToken] with
    | Some err => Err err
    | None =>
        match URLPkg.Parse (env envAPIURL) with
        | Err err => Err ("parsing base URL: " +:+ err)
        | Ok u => Ok (mkClient u (env envRepo) (env envRef) (env envToken))
        end
    end.

(** How [main] ends: by returning, or in [log.Fatalf]. *)
Inductive exit : Type :=
| Returned
| Fatal (msg : string).

Definition binDir : string := "./bin".

(** The loop of [main] over the directory entries; [Some msg] when it
    ends in [log.Fatalf]. *)
Fixpoint uploadEntries (c : client) (url : string) (entries : list DirEntry)
  : M (option string) :=
  match entries with
  | [] => ret None
  | e :: entries' =>
      if IsDir e then uploadEntries c url entries'
      else
        let name := Name e in
        let ct := "" in
        let ct :=
          if StringsPkg.HasSuffix name ".zip" then contentTypeZIP
          else if StringsPkg.HasSuffix name ".tar.gz" then contentTypeTARGZ
          else ct in
        if String.eqb ct "" then uploadEntries c url entries'
        else
          let* err := upload c url (PathPkg.Join [binDir; name]) ct in
          match err with
          | Some err =>
              ret (Some ("upload file " +:+ name +:+ ": " +:+ err))
          | None => uploadEntries c url entries'
          end
  end.

Section Decoder.

(** [encoding/json]: what decoding the response body into the struct
    with the one field [upload_url] leaves in that field, or the
    decoder's error. *)
Variable decode_upload_url : string -> result string.

Definition uploadURL (c : client) : M (result string) :=
  match URLPkg.URL_Parse (baseURL c)
          (PathPkg.Join ["/repos"; repo c; "releases/tags"; ref c]) with
  | Err err => ret (Err ("parse url: " +:+ err))
  | Ok u =>
      match http_NewRequestWithContext "GET" (URLPkg.String_ u) with
      | Err err => ret (Err ("creating request: " +:+ err))
      | Ok req =>
          let req := Header_Set req "Authorization" ("token: " +:+ token c) in
          let req := Header_Set req "Accept" "application/vnd.github.v3+json" in
          let* resp := http_Do req in
          match resp with
          | Err err => ret (Err ("do request: " +:+ err))
          | Ok resp =>
              if negb (StatusCode resp =? StatusOK) then
                ret (Err ("unexpected status code: " +:+ Status resp))
              else
                match decode_upload_url (Body resp) with
                | Err err => ret (Err ("decoding response: " +:+ err))
                | Ok body_UploadURL =>
                    let uploadURL := body_UploadURL in
                    let i := StringsPkg.Index uploadURL "{" in
                    let uploadURL :=
                      if 0 <=? i then StringsPkg.slice_to uploadURL i
                      else uploadURL in
                    ret (Ok uploadURL)
                end
          end
      end
  end.

Definition main : M exit :=
  fun w =>
    match clientFromEnv (os_Getenv w) with
    | Err err => (Fatal ("creating client: " +:+ err), w)
    | Ok c =>
        (let* url := uploadURL c in
         match url with
         | Err err => ret (Fatal ("creating upload url: " +:+ err))
         | Ok url =>
             let* entries := os_ReadDir binDir in
             match entries with
             | Err err => ret (Fatal ("reading dir ./bin: " +:+ err))
             | Ok entries =>
                 let* r := uploadEntries c url entries in
                 match r with
                 | Some msg => ret (Fatal msg)
                 | None => ret Returned
                 end
             end
         end) w
    end.

End Decoder.

(** ** Vocabulary of the properties *)

(** The files stat'd and the requests sent in a trace, in order. *)
Definition stats (t : list event) : list string :=
  omap (fun e => match e with EvStat p => Some p | _ => None end) t.

Definition requests (t : list event) : list Request :=
  omap (fun e => match e with EvDo req => Some req | _ => None end) t.

(** [Header.Get]: the first value of a header, or the empty string. *)
Definition Header_Get (req : Request) (key : string) : string :=
  ValuesPkg.Get (Header req) key.

(** The file and the content type that a request carries. *)
Definition request_asset (req : Request) : option string * string :=
  (GetBody req, Header_Get req "Content-Type").

(** The selection of the specification: an entry that is not a directory
    and whose name ends in [.zip] or [.tar.gz] is an asset, uploaded from
    its path under [binDir] with the content type of its suffix; any
    other entry is not. *)
Definition asset (e : DirEntry) : option (string * string) :=
  if IsDir e then None
  else if StringsPkg.HasSuffix (Name e) ".zip" then
    Some (PathPkg.Join [binDir; Name e], "application/zip")
  else if StringsPkg.HasSuffix (Name e) ".tar.gz" then
    Some (PathPkg.Join [binDir; Name e], "application/gzip")
  else None.

Definition assets (entries : list DirEntry) : list (string * string) :=
  omap asset entries.

Definition asset_request (a : string * string) : option string * string :=
  (Some a.1, a.2).

(** All the values of one key added to the parameters, in order. *)
Definition add_values (m : gmap string (list string))
    (kv : string * list string) : gmap string (list string) :=
  fold_left (fun a v => ValuesPkg.Add a kv.1 v) kv.2 m.












(** A string without [?] and [#], the two marks that end the part of a
    URL before its query. *)
Definition markless (s : string) : Prop :=
  mem_byte "?" s = false /\ mem_byte "#" s = false.

(** A byte that the scan of [getScheme] goes over. *)
Definition scheme_char (c : ascii) : bool :=
  is_lower c || is_upper c || is_digit c || mem_byte c "+-.".

(** The URL that [upload] asks for: the parsed upload URL [u] with the
    parameter [name] of its query set to the base name of the file. *)
Definition upload_target (u : URLPkg.URL) (path : string) : URLPkg.URL :=
  set_RawQuery u
    (ValuesPkg.Encode
       (ValuesPkg.Set_ (ValuesPkg.Query u) "name" (PathPkg.Base path))).

(** What [upload] makes of the request [r0] that [NewRequestWithContext]
    returned, and what [uploadURL] makes of it. *)
Definition upload_request_for (c : client) (r0 : Request)
    (path contentType : string) (size : Z) : Request :=
  set_GetBody
    (set_ContentLength
       (Header_Set
          (Header_Set
             (Header_Set r0 "Authorization" ("token: " +:+ token c))
             "Accept" "application/vnd.github.v3+json")
          "Content-Type" contentType)
       size)
    path.

Definition lookup_request_for (c : client) (r0 : Request) : Request :=
  Header_Set
    (Header_Set r0 "Authorization" ("token: " +:+ token c))
    "Accept" "application/vnd.github.v3+json".

(** The assets [l] are uploaded one after the other from the world [w],
    none of these uploads fails, and [w'] is the world after the last. *)
Fixpoint uploaded (c : client) (url : string) (l : list (string * string))
    (w w' : World) : Prop :=
  match l with
  | [] => w' = w
  | a :: l' =>
      (upload c url a.1 a.2 w).1 = None
      /\ uploaded c url l' (upload c url a.1 a.2 w).2 w'
  end.

(** ** Worlds used to run the program on concrete inputs *)

Definition ci_env (k : string) : string :=
  if String.eqb k envActions then "true"
  else if String.eqb k envAPIURL then "https://api.github.com"
  else if String.eqb k envRef then "v1.0"
  else if String.eqb k envRepo then "google/log4jscanner"
  else if String.eqb k envToken then "s3cret"
  else "".

(** The environment of a developer's shell: everything set but the CI flag. *)
Definition shell_env (k : string) : string :=
  if String.eqb k envActions then "" else ci_env k.

Definition no_repo_env (k : string) : string :=
  if String.eqb k envRepo then "" else ci_env k.

Definition release_template : string :=
  "https://uploads.github.com/repos/google/log4jscanner/releases/1/assets{?name,label}".

(** A server that answers the release lookup with [tmpl], and every
    upload with 201 when it accepts uploads and with 422 when it does
    not. *)
Definition demo_server (tmpl : string) (accepts : bool) (_ : list event)
    (req : Request) : result Response :=
  if String.eqb (Method req) "GET" then
    Ok (mkResponse 200 "200 OK" tmpl)
  else if accepts then Ok (mkResponse 201 "201 Created" "asset")
  else Ok (mkResponse 422 "422 Unprocessable Entity" "already_exists").

Definition demo_listing : list DirEntry :=
  [mkDirEntry "a.zip" false; mkDirEntry "b.tar.gz" false;
   mkDirEntry "c.txt" false; mkDirEntry "d" true].

Definition demo_world (tmpl : string) (accepts : bool) : World :=
  mkWorld ci_env (fun _ => Ok 4096) (fun _ => Ok demo_listing)
    (demo_server tmpl accepts) [].

(** A world in which no file can be stat'd. *)
Definition empty_disk_world : World :=
  mkWorld ci_env (fun p => Err ("stat " +:+ p +:+ ": no such file or directory"))
    (fun _ => Ok []) (demo_server release_template true) [].



Definition ghes_client : client :=
  mkClient
    (URLPkg.mkURL "https" "" None "ghe.example.com" "/api/v3" "" false "" "" "")
    "google/log4jscanner" "v1.0" "s3cret".

(** The base URL of the examples of RFC 3986, 5.4, and a reference
    resolved against a base, as a string. *)
Definition rfc_base : URLPkg.URL :=
  URLPkg.mkURL "http" "" None "a" "/b/c/d;p" "" false "q" "" "".

Definition resolve_against (b : URLPkg.URL) (r : string) : string :=
  match URLPkg.URL_Parse b r with
  | Ok u => URLPkg.String_ u
  | Err e => e
  end.


(** A decoder for bodies that are the bare template. *)
Definition bare_decoder (body : string) : result string := Ok body.

Definition demo_client : client :=
  mkClient (URLPkg.mkURL "https" "" None "api.github.com" "" "" false "" "" "")
    "google/log4jscanner" "v1.0" "s3cret".

Definition demo_upload_url : string :=
  "https://uploads.github.com/repos/google/log4jscanner/releases/1/assets".

(** The upload request of [demo_client] for a file of 4096 bytes. *)
Definition demo_upload_request (name path ct : string) : Request :=
  set_GetBody
    (set_ContentLength
       (Header_Set
          (Header_Set
             (Header_Set
                (mkRequest "POST"
                   (URLPkg.mkURL "https" "" None "uploads.github.com"
                      "/repos/google/log4jscanner/releases/1/assets" ""
                      false ("name=" +:+ name) "" "")
                   ∅ None 0 None)
                "Authorization" "token: s3cret")
             "Accept" "application/vnd.github.v3+json")
          "Content-Type" ct)
       4096)
    path.

(** The lookup request of [demo_client]. *)
Definition demo_lookup_request : Request :=
  Header_Set
    (Header_Set
       (mkRequest "GET"
          (URLPkg.mkURL "https" "" None "api.github.com"
             "/repos/google/log4jscanner/releases/tags/v1.0" "" false "" "" "")
          ∅ None 0 None)
       "Authorization" "token: s3cret")
    "Accept" "application/vnd.github.v3+json".

(** The world of the demo with empty files, and the upload request for
    one of them. *)
Definition empty_files_world (accepts : bool) : World :=
  mkWorld ci_env (fun _ => Ok 0) (fun _ => Ok demo_listing)
    (demo_server release_template accepts) [].

Definition empty_upload_request (name path ct : string) : Request :=
  set_ContentLength (demo_upload_request name path ct) 0.

(** A server that takes zip archives only, and a directory of three
    archives, the second of which it refuses. *)
Definition zip_only_server (_ : list event) (req : Request)
  : result Response :=
  if String.eqb (Method req) "GET" then
    Ok (mkResponse 200 "200 OK" release_template)
  else if String.eqb (Header_Get req "Content-Type") "application/zip" then
    Ok (mkResponse 201 "201 Created" "asset")
  else Ok (mkResponse 415 "415 Unsupported Media Type" "zip archives only").

Definition three_archives : list DirEntry :=
  [mkDirEntry "a.zip" false; mkDirEntry "b.tar.gz" false;
   mkDirEntry "c.zip" false].

Definition zip_only_world : World :=
  mkWorld ci_env (fun _ => Ok 0) (fun _ => Ok three_archives)
    zip_only_server [].

(** A client whose base URL ends in an empty port. *)
Definition empty_port_client : client :=
  mkClient (URLPkg.mkURL "https" "" None "api.github.com:" "" "" false "" "" "")
    "google/log4jscanner" "v1.0" "s3cret".

(** ** Vocabulary of the further properties *)

(** Two worlds that differ in their trace only. *)
Definition same_outside (w w' : World) : Prop :=
  environ w' = environ w /\ file_size w' = file_size w
  /\ dir_entries w' = dir_entries w /\ server w' = server w.

(** Whether every request of the trace [t], sent by a program that
    started after the history [hist], was answered by [srv] with a
    response of status [status]. *)
Fixpoint all_answered (status : Z)
    (srv : list event -> Request -> result Response)
    (hist t : list event) : bool :=
  match t with
  | [] => true
  | EvDo req :: t' =>
      match srv hist req with
      | Ok resp => StatusCode resp =? status
      | Err _ => false
      end && all_answered status srv (hist ++ [EvDo req]) t'
  | e :: t' => all_answered status srv (hist ++ [e]) t'
  end.

(** The name of a file in a directory listing: not empty, not [.] or
    [..], without a slash. *)
Definition file_name (s : string) : bool :=
  negb (String.eqb s "") && negb (String.eqb s ".")
  && negb (String.eqb s "..") && negb (mem_byte "/" s).

(** An environment with a base URL that does not parse. *)
Definition bad_url_env (k : string) : string :=
  if String.eqb k envAPIURL then "https://api github.com" else ci_env k.

(** A server that knows the release but cannot be reached for uploads. *)
Definition unreachable_server (tmpl : string) (_ : list event) (req : Request)
  : result Response :=
  if String.eqb (Method req) "GET" then Ok (mkResponse 200 "200 OK" tmpl)
  else Err "dial tcp: connection refused".

Definition unreachable_world : World :=
  mkWorld ci_env (fun _ => Ok 4096) (fun _ => Ok demo_listing)
    (unreachable_server release_template) [].

(** Parameters none of whose keys has an empty list of values. *)
Definition nonempty_values (m : gmap string (list string)) : Prop :=
  forall k vs, m !! k = Some vs -> vs <> [].

(** An upload URL that already has a query. *)
Definition labelled_upload_url : string :=
  "https://uploads.github.com/assets?name=old&label=nightly+build".

(** A request made from the upload URL [url]: its URL is the one that
    [NewRequestWithContext] makes of the text of [url] with the
    parameter [name] of its query set for some file. *)
Definition to_upload_url (url : string) (req : Request) : Prop :=
  exists u path r0,
    URLPkg.Parse url = Ok u
    /\ http_NewRequestWithContext "POST"
         (URLPkg.String_ (upload_target u path)) = Ok r0
    /\ URL req = URL r0.

(** What an event of the loop of [main] can be: a stat, or a POST that
    carries the token of the client and is made from the upload URL. *)
Definition upload_event (c : client) (url : string) (e : event) : Prop :=
  match e with
  | EvReadDir _ => False
  | EvStat _ => True
  | EvDo req =>
      Method req = "POST"
      /\ Header req !! "Authorization" = Some ["token: " +:+ token c]
      /\ to_upload_url url req
  end.

(** A server that answers the lookup with status 404. *)
Definition no_release_server (_ : list event) (_ : Request)
  : result Response :=
  Ok (mkResponse 404 "404 Not Found" "Not Found").

Definition no_release_world : World :=
  mkWorld ci_env (fun _ => Ok 4096) (fun _ => Ok demo_listing)
    no_release_server [].

(** A listing without an archive. *)
Definition plain_listing : list DirEntry :=
  [mkDirEntry "README.txt" false; mkDirEntry "a.zip" true;
   mkDirEntry "notes.tar" false].

(** What an event of the loop of [main] can be, by kind only. *)
Definition stat_or_post (e : event) : Prop :=
  match e with
  | EvReadDir _ => False
  | EvStat _ => True
  | EvDo req => Method req = "POST"
  end.

(** * Properties *)

(** ** Strings *)

Lemma append_nil_l (s : string) : "" +:+ s = s.
Proof. reflexivity. Qed.

Lemma append_cons (a : ascii) (s t : string) :
  String a s +:+ t = String a (s +:+ t).
Proof. reflexivity. Qed.

Lemma append_nil_r (s : string) : s +:+ "" = s.
Proof. induction s as [|a s IH]; [reflexivity|]. now rewrite append_cons, IH. Qed.

Lemma append_assoc (s t u : string) : (s +:+ t) +:+ u = s +:+ (t +:+ u).
Proof.
  induction s as [|a s IH]; [reflexivity|]. now rewrite !append_cons, IH.
Qed.

Lemma length_append (s t : string) :
  String.length (s +:+ t) = (String.length s + String.length t)%nat.
Proof.
  induction s as [|a s IH]; [reflexivity|].
  rewrite append_cons. simpl. now rewrite IH.
Qed.

(** ** The library model on known inputs *)

Example path_clean_examples :
  map PathPkg.Clean
      ["a/c"; "a//c"; "a/c/."; "a/c/b/.."; "/../a/c"; "/../a/b/../././/c";
       ""; "../../x"; "a/../.."; "/"; "./bin/a.zip"; "abc/def/../../.."]
  = ["a/c"; "a/c"; "a/c"; "a/c"; "/a/c"; "/a/c";
     "."; "../../x"; ".."; "/"; "bin/a.zip"; ".."].
Proof. reflexivity. Qed.

Example path_base_examples :
  map PathPkg.Base ["bin/a.zip"; "/a/b/"; ""; "///"; "x"]
  = ["a.zip"; "b"; "."; "/"; "x"].
Proof. reflexivity. Qed.

Example values_encode_example :
  ValuesPkg.Encode
    (ValuesPkg.Set_ (ValuesPkg.ParseQuery "z=1&label=a+b&z=2&bad=%zz&;")
       "name" "log4j scanner_v1.zip")
  = "label=a+b&name=log4j+scanner_v1.zip&z=1&z=2".
Proof. vm_compute. reflexivity. Qed.

Example url_parse_examples :
  URLPkg.Parse "http://a/b/c/d;p?q" = Ok rfc_base
  /\ URLPkg.Parse "https://api.github.com" = Ok (baseURL demo_client)
  /\ URLPkg.Parse "https://ghe.example.com/api/v3" = Ok (baseURL ghes_client)
  /\ URLPkg.Parse "/a%2Fb c?x=1#top"
     = Ok (URLPkg.mkURL "" "" None "" "/a/b c" "/a%2Fb c" false "x=1" "top" "").
Proof. vm_compute. repeat split. Qed.

(** The normal and abnormal examples of RFC 3986, 5.4. *)
Example rfc3986_resolution :
  map (resolve_against rfc_base)
      ["g"; "./g"; "g/"; "/g"; "//g"; "?y"; "g?y"; "#s"; "g#s"; "g?y#s";
       ";x"; "g;x"; ""; "."; "./"; ".."; "../"; "../g"; "../.."; "../../";
       "../../g"; "../../../g"; "/./g"; "/../g"; "g."; ".g"; "g.."; "..g";
       "./../g"; "./g/."; "g/./h"; "g/../h"]
  = ["http://a/b/c/g"; "http://a/b/c/g"; "http://a/b/c/g/"; "http://a/g";
     "http://g"; "http://a/b/c/d;p?y"; "http://a/b/c/g?y";
     "http://a/b/c/d;p?q#s"; "http://a/b/c/g#s"; "http://a/b/c/g?y#s";
     "http://a/b/c/;x"; "http://a/b/c/g;x"; "http://a/b/c/d;p?q";
     "http://a/b/c/"; "http://a/b/c/"; "http://a/b/"; "http://a/b/";
     "http://a/b/g"; "http://a/"; "http://a/"; "http://a/g"; "http://a/g";
     "http://a/g"; "http://a/g"; "http://a/b/c/g."; "http://a/b/c/.g";
     "http://a/b/c/g.."; "http://a/b/c/..g"; "http://a/b/g";
     "http://a/b/c/g/"; "http://a/b/c/g/h"; "http://a/b/c/h"].
Proof. vm_compute. reflexivity. Qed.

(** ** Configuration from the environment *)

Lemma check_present_first (env : string -> string) pre key post :
  Forall (fun k => env k <> "") pre ->
  env key = "" ->
  check_present env (pre ++ key :: post)
  = Some ("expected environment variable not present: " +:+ key).
Proof.
  induction 1 as [|k pre Hk _ IH]; intros Hkey; simpl.
  - now rewrite Hkey.
  - apply String.eqb_neq in Hk. rewrite Hk. auto.
Qed.

Lemma check_present_all (env : string -> string) keys :
  Forall (fun k => env k <> "") keys -> check_present env keys = None.
Proof.
  induction 1 as [|k keys Hk _ IH]; simpl; [reflexivity|].
  apply String.eqb_neq in Hk. now rewrite Hk.
Qed.

(** C5: when GITHUB_ACTIONS is unset (empty) or is anything but the
    string "true", [clientFromEnv] fails with the "not running under
    github actions" error, whatever the other variables hold. *)
Theorem clientFromEnv_not_ci (env : string -> string) :
  env envActions <> envActionsValTrue ->
  clientFromEnv env = Err "not running under github actions".
Proof.
  intros Hne. unfold clientFromEnv.
  apply String.eqb_neq in Hne. now rewrite Hne.
Qed.

Lemma clientFromEnv_not_ci_witness :
  shell_env envActions <> envActionsValTrue
  /\ clientFromEnv shell_env = Err "not running under github actions".
Proof.
  assert (H : shell_env envActions <> envActionsValTrue) by discriminate.
  split; [exact H | exact (clientFromEnv_not_ci shell_env H)].
Defined.

(** C6: with the CI flag set, if one of GITHUB_API_URL, GITHUB_REF_NAME,
    GITHUB_REPOSITORY, GITHUB_TOKEN is empty, [clientFromEnv] fails with
    an error that names the first empty one in that order; if all four
    are non-empty and the base URL parses, it returns the client built
    from them. *)
Theorem clientFromEnv_required (env : string -> string) :
  env envActions = envActionsValTrue ->
  (forall pre key post,
      [envAPIURL; envRef; envRepo; envToken] = pre ++ key :: post ->
      Forall (fun k => env k <> "") pre ->
      env key = "" ->
      clientFromEnv env
      = Err ("expected environment variable not present: " +:+ key))
  /\ (Forall (fun k => env k <> "") [envAPIURL; envRef; envRepo; envToken] ->
      forall u, URLPkg.Parse (env envAPIURL) = Ok u ->
      clientFromEnv env
      = Ok (mkClient u (env envRepo) (env envRef) (env envToken))).
Proof.
  intros Hci. unfold clientFromEnv. rewrite Hci. simpl negb. cbv iota.
  split.
  - intros pre key post Hkeys Hpre Hkey. rewrite Hkeys.
    now rewrite (check_present_first env pre key post Hpre Hkey).
  - intros Hall u Hu. rewrite (check_present_all env _ Hall). now rewrite Hu.
Qed.

Lemma clientFromEnv_required_witness :
  no_repo_env envActions = envActionsValTrue
  /\ clientFromEnv no_repo_env
     = Err "expected environment variable not present: GITHUB_REPOSITORY"
  /\ clientFromEnv ci_env
     = Ok (mkClient
             (URLPkg.mkURL "https" "" None "api.github.com" "" "" false "" "" "")
             "google/log4jscanner" "v1.0" "s3cret").
Proof.
  split; [reflexivity|]. split.
  - apply (proj1 (clientFromEnv_required no_repo_env eq_refl)
             [envAPIURL; envRef] envRepo [envToken]).
    + reflexivity.
    + repeat constructor; discriminate.
    + reflexivity.
  - apply (proj2 (clientFromEnv_required ci_env eq_refl)).
    + repeat constructor; discriminate.
    + vm_compute. reflexivity.
Defined.

(** ** Uploading one asset *)

Lemma app_one_two {A} (l : list A) (x y z : A) :
  (l ++ [x]) ++ [y] = l ++ [x; z] -> y = z.
Proof.
  rewrite <- app_assoc. intros H. apply app_inv_head in H. now inversion H.
Qed.

Lemma not_app_one {A} (l : list A) (x : A) : l <> l ++ [x].
Proof.
  intros H. apply (f_equal length) in H. rewrite length_app in H.
  simpl in H. lia.
Qed.

Lemma app_one_not_two {A} (l : list A) (x y z : A) :
  l ++ [x] <> l ++ [y; z].
Proof. intros H. apply app_inv_head in H. discriminate. Qed.

Ltac same_request H :=
  apply app_one_two in H; inversion H; subst; clear H.

(** What [NewRequestWithContext] returns. *)
Lemma NewRequest_ok (method url : string) (r0 : Request) :
  http_NewRequestWithContext method url = Ok r0 ->
  exists u,
    URLPkg.Parse url = Ok u
    /\ r0 = mkRequest method (set_Host u (removeEmptyPort (URLPkg.Host u)))
              ∅ None 0 None.
Proof.
  unfold http_NewRequestWithContext.
  destruct (URLPkg.Parse url) as [u|e]; [|discriminate].
  intros [= <-]. now exists u.
Qed.

(** [upload], case by case. *)
Lemma upload_unfold (c : client) (uploadURL path contentType : string)
    (w : World) :
  upload c uploadURL path contentType w
  = match file_size w path with
    | Err err => (Some ("stat asset: " +:+ err), log (EvStat path) w)
    | Ok size =>
        match URLPkg.Parse uploadURL with
        | Err err => (Some ("parse url: " +:+ err), log (EvStat path) w)
        | Ok u =>
            match http_NewRequestWithContext "POST"
                    (URLPkg.String_ (upload_target u path)) with
            | Err err =>
                (Some ("creating request: " +:+ err), log (EvStat path) w)
            | Ok r0 =>
                let req := upload_request_for c r0 path contentType size in
                (match server w (trace w ++ [EvStat path]) req with
                 | Err err => Some ("do request: " +:+ err)
                 | Ok resp =>
                     if StatusCode resp =? StatusCreated then None
                     else Some ("unexpected status code "
                                +:+ URLPkg.String_ (upload_target u path)
                                +:+ ": " +:+ Status resp +:+ ": "
                                +:+ Body resp)
                 end,
                 log (EvDo req) (log (EvStat path) w))
            end
        end
    end.
Proof.
  unfold upload, bind, os_Stat, http_Do, ret.
  destruct (file_size w path) as [size|e]; [|reflexivity].
  destruct (URLPkg.Parse uploadURL) as [u|e]; [|reflexivity].
  cbv zeta. fold (upload_target u path).
  destruct (http_NewRequestWithContext _ _) as [r0|e]; [|reflexivity].
  fold (upload_request_for c r0 path contentType size).
  cbn [trace log server].
  destruct (server w _ _) as [resp|e]; [|reflexivity].
  destruct (StatusCode resp =? StatusCreated); reflexivity.
Qed.

(** C10: when the file cannot be stat'd, [upload] returns the stat error
    and the only thing it has done is that stat: no request is built or
    sent. *)
Theorem upload_stat_failure (c : client) (uploadURL path contentType : string)
    (w : World) (e : string) :
  file_size w path = Err e ->
  (upload c uploadURL path contentType w).1 = Some ("stat asset: " +:+ e)
  /\ trace (upload c uploadURL path contentType w).2 = trace w ++ [EvStat path].
Proof.
  intros Hstat. rewrite upload_unfold, Hstat. split; reflexivity.
Qed.

Lemma upload_stat_failure_witness :
  file_size empty_disk_world "bin/a.zip"
  = Err "stat bin/a.zip: no such file or directory"
  /\ (upload demo_client demo_upload_url "bin/a.zip" contentTypeZIP
        empty_disk_world).1
     = Some "stat asset: stat bin/a.zip: no such file or directory"
  /\ trace (upload demo_client demo_upload_url "bin/a.zip" contentTypeZIP
              empty_disk_world).2
     = [EvStat "bin/a.zip"].
Proof.
  split; [reflexivity|].
  exact (upload_stat_failure demo_client demo_upload_url "bin/a.zip"
           contentTypeZIP empty_disk_world _ eq_refl).
Defined.

(** [upload] either stops before sending anything and fails, or sends
    the one request built from its arguments. *)
Lemma upload_effects (c : client) (uploadURL path contentType : string)
    (w : World) :
  let r := (upload c uploadURL path contentType w).1 in
  let w' := (upload c uploadURL path contentType w).2 in
  (trace w' = trace w ++ [EvStat path] /\ r <> None)
  \/ (exists size u r0,
         file_size w path = Ok size
         /\ URLPkg.Parse uploadURL = Ok u
         /\ http_NewRequestWithContext "POST"
              (URLPkg.String_ (upload_target u path)) = Ok r0
         /\ trace w'
            = trace w
              ++ [EvStat path;
                  EvDo (upload_request_for c r0 path contentType size)]).
Proof.
  rewrite upload_unfold.
  destruct (file_size w path) as [size|e];
    [|left; split; [reflexivity|discriminate]].
  destruct (URLPkg.Parse uploadURL) as [u|e];
    [|left; split; [reflexivity|discriminate]].
  destruct (http_NewRequestWithContext _ _) as [r0|e] eqn:Hnew;
    [|left; split; [reflexivity|discriminate]].
  right. exists size, u, r0. cbn [snd trace log].
  rewrite <- app_assoc. repeat split. exact Hnew.
Qed.

(** C8: [upload] returns nil only when it has sent a request that was
    answered with status 201; and when the file exists, the upload URL
    parses, the request can be made and the server answers it, [upload]
    returns nil exactly when the status of that response is 201, and for
    any other status an error that ends with the body of the response. *)
Theorem upload_created_iff (c : client) (uploadURL path contentType : string)
    (w : World) :
  let r := (upload c uploadURL path contentType w).1 in
  let w' := (upload c uploadURL path contentType w).2 in
  (r = None ->
   exists req resp,
     trace w' = trace w ++ [EvStat path; EvDo req]
     /\ server w (trace w ++ [EvStat path]) req = Ok resp
     /\ StatusCode resp = StatusCreated)
  /\ (forall size u r0 resp,
         file_size w path = Ok size ->
         URLPkg.Parse uploadURL = Ok u ->
         http_NewRequestWithContext "POST"
           (URLPkg.String_ (upload_target u path)) = Ok r0 ->
         server w (trace w ++ [EvStat path])
           (upload_request_for c r0 path contentType size) = Ok resp ->
         (r = None <-> StatusCode resp = StatusCreated)
         /\ (StatusCode resp <> StatusCreated ->
             exists pre, r = Some (pre +:+ Body resp))).
Proof.
  rewrite upload_unfold. split.
  - destruct (file_size w path) as [size|e]; [|discriminate].
    destruct (URLPkg.Parse uploadURL) as [u|e]; [|discriminate].
    destruct (http_NewRequestWithContext _ _) as [r0|e]; [|discriminate].
    cbn [fst snd trace log].
    destruct (server w _ _) as [resp|e] eqn:Hdo; [|discriminate].
    destruct (StatusCode resp =? StatusCreated) eqn:Hst; [|discriminate].
    intros _. eexists _, resp. rewrite <- app_assoc.
    split; [reflexivity|]. split; [exact Hdo|]. now apply Z.eqb_eq.
  - intros size u r0 resp -> -> -> . cbn [fst]. intros ->.
    destruct (StatusCode resp =? StatusCreated) eqn:Hst.
    + apply Z.eqb_eq in Hst. split; [now split|contradiction].
    + apply Z.eqb_neq in Hst. split; [split; [discriminate|contradiction]|].
      intros _. eexists. rewrite <- !append_assoc. reflexivity.
Qed.

Lemma upload_created_iff_witness :
  let up accepts :=
    upload demo_client demo_upload_url "bin/a.zip" "application/zip"
      (empty_files_world accepts) in
  (server (empty_files_world true) [EvStat "bin/a.zip"]
     (empty_upload_request "a.zip" "bin/a.zip" "application/zip")
   = Ok (mkResponse 201 "201 Created" "asset")
   /\ (up true).1 = None)
  /\ (server (empty_files_world false) [EvStat "bin/a.zip"]
        (empty_upload_request "a.zip" "bin/a.zip" "application/zip")
      = Ok (mkResponse 422 "422 Unprocessable Entity" "already_exists")
      /\ exists pre, (up false).1 = Some (pre +:+ "already_exists")).
Proof.
  intros up. split; (split; [reflexivity|]).
  - apply (proj2 (upload_created_iff demo_client demo_upload_url "bin/a.zip"
                    "application/zip" (empty_files_world true))
             0
             (URLPkg.mkURL "https" "" None "uploads.github.com"
                "/repos/google/log4jscanner/releases/1/assets" "" false ""
                "" "")
             (mkRequest "POST"
                (URLPkg.mkURL "https" "" None "uploads.github.com"
                   "/repos/google/log4jscanner/releases/1/assets" "" false
                   "name=a.zip" "" "")
                ∅ None 0 None)
             (mkResponse 201 "201 Created" "asset")); reflexivity.
  - apply (proj2 (upload_created_iff demo_client demo_upload_url "bin/a.zip"
                    "application/zip" (empty_files_world false))
             0
             (URLPkg.mkURL "https" "" None "uploads.github.com"
                "/repos/google/log4jscanner/releases/1/assets" "" false ""
                "" "")
             (mkRequest "POST"
                (URLPkg.mkURL "https" "" None "uploads.github.com"
                   "/repos/google/log4jscanner/releases/1/assets" "" false
                   "name=a.zip" "" "")
                ∅ None 0 None)
             (mkResponse 422 "422 Unprocessable Entity" "already_exists"));
      try reflexivity.
    discriminate.
Defined.

(** ** The release lookup *)

Lemma HasPrefix_byte (s : string) (c : ascii) :
  StringsPkg.HasPrefix s (String c "")
  = match s with String a _ => Ascii.eqb a c | EmptyString => false end.
Proof.
  destruct s as [|a s]; [reflexivity|]. simpl.
  destruct s; apply andb_true_r.
Qed.

(** The first occurrence of a byte: [Index] finds the end of the longest
    prefix without it. *)
Lemma index_byte_found (c : ascii) (s : string) :
  mem_byte c s = true ->
  exists pre post,
    s = pre +:+ String c post
    /\ mem_byte c pre = false
    /\ StringsPkg.index_nat s (String c "") = Some (String.length pre)
    /\ StringsPkg.take (String.length pre) s = pre.
Proof.
  induction s as [|a s IH]; [discriminate|].
  intros Hmem. cbn [StringsPkg.index_nat]. rewrite HasPrefix_byte.
  destruct (Ascii.eqb a c) eqn:Hac.
  - apply Ascii.eqb_eq in Hac. subst a. exists "", s. now repeat split.
  - simpl in Hmem. rewrite Ascii.eqb_sym, Hac in Hmem. simpl in Hmem.
    destruct (IH Hmem) as (pre & post & Hs & Hpre & Hidx & Htake).
    exists (String a pre), post. repeat split.
    + now rewrite append_cons, <- Hs.
    + simpl. now rewrite Ascii.eqb_sym, Hac.
    + now rewrite Hidx.
    + simpl. now rewrite Htake.
Qed.

Lemma index_byte_missing (c : ascii) (s : string) :
  mem_byte c s = false -> StringsPkg.index_nat s (String c "") = None.
Proof.
  induction s as [|a s IH]; [reflexivity|].
  simpl mem_byte. intros Hmem. apply orb_false_elim in Hmem as [Hca Hmem].
  cbn [StringsPkg.index_nat]. rewrite HasPrefix_byte, Ascii.eqb_sym, Hca.
  now rewrite (IH Hmem).
Qed.

Section Lookup.

Variable decode_upload_url : string -> result string.

(** What [uploadURL] returns once the server has answered 200 with a
    body that decodes to [tmpl]. *)
Lemma uploadURL_answered (c : client) (w : World) req resp tmpl :
  trace (uploadURL decode_upload_url c w).2 = trace w ++ [EvDo req] ->
  server w (trace w) req = Ok resp ->
  StatusCode resp = StatusOK ->
  decode_upload_url (Body resp) = Ok tmpl ->
  (uploadURL decode_upload_url c w).1
  = Ok (if 0 <=? StringsPkg.Index tmpl "{"
        then StringsPkg.slice_to tmpl (StringsPkg.Index tmpl "{")
        else tmpl).
Proof.
  unfold uploadURL, bind, http_Do, ret.
  destruct (URLPkg.URL_Parse _ _) as [u|e]; simpl;
    [|intros H; now apply not_app_one in H].
  destruct (http_NewRequestWithContext _ _) as [req0|e]; simpl;
    [|intros H; now apply not_app_one in H].
  match goal with
  | |- context [server w (trace w) ?r] =>
      destruct (server w (trace w) r) as [resp0|e] eqn:Hdo
  end; simpl.
  - destruct (StatusCode resp0 =? StatusOK) eqn:Hst0; simpl;
      [destruct (decode_upload_url (Body resp0)) as [t|e] eqn:Hdec0|];
      simpl; intros Htr Hsrv Hst Hdec;
      apply app_inv_head in Htr; inversion Htr; subst req; clear Htr;
      rewrite Hdo in Hsrv; inversion Hsrv; subst resp0; clear Hsrv.
    + rewrite Hdec0 in Hdec. now inversion Hdec.
    + rewrite Hdec0 in Hdec. discriminate.
    + rewrite Hst in Hst0. discriminate.
  - intros Htr Hsrv. apply app_inv_head in Htr. inversion Htr; subst req.
    rewrite Hdo in Hsrv. discriminate.
Qed.

(** C3: when the template in the body of the lookup response has a
    [{], [uploadURL] returns the part of the template before its first
    [{]. *)
Theorem uploadURL_truncates (c : client) (w : World) req resp tmpl :
  trace (uploadURL decode_upload_url c w).2 = trace w ++ [EvDo req] ->
  server w (trace w) req = Ok resp ->
  StatusCode resp = StatusOK ->
  decode_upload_url (Body resp) = Ok tmpl ->
  mem_byte "{" tmpl = true ->
  exists pre post,
    tmpl = pre +:+ "{" +:+ post
    /\ mem_byte "{" pre = false
    /\ (uploadURL decode_upload_url c w).1 = Ok pre.
Proof.
  intros Htr Hsrv Hst Hdec Hmem.
  rewrite (uploadURL_answered c w req resp tmpl Htr Hsrv Hst Hdec).
  destruct (index_byte_found _ _ Hmem) as (pre & post & Hs & Hpre & Hidx & Htk).
  exists pre, post. repeat split; [exact Hs|exact Hpre|].
  unfold StringsPkg.Index, StringsPkg.slice_to. rewrite Hidx.
  assert ((0 <=? Z.of_nat (String.length pre)) = true) as ->
      by (apply Z.leb_le; lia).
  now rewrite Nat2Z.id, Htk.
Qed.

(** C9: when the template in the body of the lookup response has no
    [{], [uploadURL] returns it as it is. *)
Theorem uploadURL_brace_free (c : client) (w : World) req resp tmpl :
  trace (uploadURL decode_upload_url c w).2 = trace w ++ [EvDo req] ->
  server w (trace w) req = Ok resp ->
  StatusCode resp = StatusOK ->
  decode_upload_url (Body resp) = Ok tmpl ->
  mem_byte "{" tmpl = false ->
  (uploadURL decode_upload_url c w).1 = Ok tmpl.
Proof.
  intros Htr Hsrv Hst Hdec Hmem.
  rewrite (uploadURL_answered c w req resp tmpl Htr Hsrv Hst Hdec).
  unfold StringsPkg.Index. now rewrite (index_byte_missing _ _ Hmem).
Qed.

End Lookup.

Lemma uploadURL_truncates_witness :
  exists pre post,
    release_template = pre +:+ "{" +:+ post
    /\ mem_byte "{" pre = false
    /\ (uploadURL bare_decoder demo_client (demo_world release_template true)).1
       = Ok pre.
Proof.
  apply (uploadURL_truncates bare_decoder demo_client
           (demo_world release_template true) demo_lookup_request
           (mkResponse 200 "200 OK" release_template) release_template);
    reflexivity.
Defined.

Lemma uploadURL_brace_free_witness :
  mem_byte "{" demo_upload_url = false
  /\ (uploadURL bare_decoder demo_client (demo_world demo_upload_url true)).1
     = Ok demo_upload_url.
Proof.
  split; [reflexivity|].
  apply (uploadURL_brace_free bare_decoder demo_client
           (demo_world demo_upload_url true) demo_lookup_request
           (mkResponse 200 "200 OK" demo_upload_url) demo_upload_url);
    reflexivity.
Defined.

(** ** The loop over the directory entries *)

Lemma uploadEntries_skip (c : client) (url : string) e entries :
  asset e = None ->
  uploadEntries c url (e :: entries) = uploadEntries c url entries.
Proof.
  unfold asset. cbn [uploadEntries].
  destruct (IsDir e); [reflexivity|].
  destruct (StringsPkg.HasSuffix (Name e) ".zip"); [discriminate|].
  destruct (StringsPkg.HasSuffix (Name e) ".tar.gz"); [discriminate|].
  reflexivity.
Qed.

Lemma uploadEntries_asset (c : client) (url : string) e entries p ct w :
  asset e = Some (p, ct) ->
  uploadEntries c url (e :: entries) w
  = match (upload c url p ct w).1 with
    | Some err =>
        (Some ("upload file " +:+ Name e +:+ ": " +:+ err),
         (upload c url p ct w).2)
    | None => uploadEntries c url entries (upload c url p ct w).2
    end.
Proof.
  unfold asset. cbn [uploadEntries].
  set (q := PathPkg.Join [binDir; Name e]).
  destruct (IsDir e); [discriminate|].
  destruct (StringsPkg.HasSuffix (Name e) ".zip").
  - intros Heq. assert (p = q /\ ct = contentTypeZIP) as [-> ->]
      by (now inversion Heq).
    change (String.eqb contentTypeZIP "") with false.
    cbv iota. unfold bind.
    destruct (upload c url q contentTypeZIP w) as [[err|] w1]; reflexivity.
  - destruct (StringsPkg.HasSuffix (Name e) ".tar.gz"); [|discriminate].
    intros Heq. assert (p = q /\ ct = contentTypeTARGZ) as [-> ->]
      by (now inversion Heq).
    change (String.eqb contentTypeTARGZ "") with false.
    cbv iota. unfold bind.
    destruct (upload c url q contentTypeTARGZ w) as [[err|] w1]; reflexivity.
Qed.

Lemma uploadEntries_app (c : client) (url : string) pre post w :
  uploadEntries c url (pre ++ post) w
  = match (uploadEntries c url pre w).1 with
    | Some msg => (Some msg, (uploadEntries c url pre w).2)
    | None => uploadEntries c url post (uploadEntries c url pre w).2
    end.
Proof.
  revert w. induction pre as [|e pre IH]; intros w; [reflexivity|].
  rewrite <- app_comm_cons.
  destruct (asset e) as [[p ct]|] eqn:Ha.
  - rewrite !(uploadEntries_asset c url e _ p ct w Ha).
    destruct (upload c url p ct w).1; [reflexivity|]. apply IH.
  - rewrite !(uploadEntries_skip c url e _ Ha). apply IH.
Qed.

(** What the loop does to the world: it stats and uploads assets of the
    listing only, in the order of the listing, and all of them when it
    runs to its end. *)
Lemma uploadEntries_trace (c : client) (url : string) entries w :
  exists t,
    trace (uploadEntries c url entries w).2 = trace w ++ t
    /\ stats t `prefix_of` map fst (assets entries)
    /\ map request_asset (requests t)
       `prefix_of` map asset_request (assets entries)
    /\ ((uploadEntries c url entries w).1 = None ->
        stats t = map fst (assets entries)
        /\ map request_asset (requests t)
           = map asset_request (assets entries)).
Proof.
  revert w. induction entries as [|e entries IH]; intros w.
  - exists []. simpl. rewrite app_nil_r. repeat split; apply prefix_nil.
  - unfold assets. cbn [omap list_omap]. fold (assets entries).
    destruct (asset e) as [[p ct]|] eqn:Ha; cbn [option_bind].
    2:{ rewrite (uploadEntries_skip c url e _ Ha). apply IH. }
    rewrite (uploadEntries_asset c url e _ p ct w Ha).
    destruct (upload_effects c url p ct w)
      as [[Htr Hr]|(size & u & r0 & _ & _ & _ & Htr)].
    + destruct (upload c url p ct w).1 as [err|]; [|contradiction].
      cbv iota. exists [EvStat p].
      change (stats [EvStat p]) with [p].
      change (requests [EvStat p]) with (@nil Request).
      repeat split; try discriminate.
      * exact Htr.
      * apply prefix_cons, prefix_nil.
      * apply prefix_nil.
    + set (req := upload_request_for c r0 p ct size) in Htr.
      assert (Hra : request_asset req = asset_request (p, ct)).
      { unfold request_asset, asset_request, Header_Get, ValuesPkg.Get.
        cbn [req upload_request_for GetBody Header set_GetBody
               set_ContentLength Header_Set].
        now rewrite lookup_insert_eq. }
      destruct (upload c url p ct w).1 as [err|]; cbv iota.
      * exists [EvStat p; EvDo req].
        change (stats [EvStat p; EvDo req]) with [p].
        change (requests [EvStat p; EvDo req]) with [req].
        cbn [map fst]. rewrite Hra.
        repeat split; try discriminate.
        -- exact Htr.
        -- apply prefix_cons, prefix_nil.
        -- apply prefix_cons, prefix_nil.
      * destruct (IH (upload c url p ct w).2) as (t & Ht & Hst & Hrq & Hall).
        exists ([EvStat p; EvDo req] ++ t).
        change (stats ([EvStat p; EvDo req] ++ t)) with (p :: stats t).
        change (requests ([EvStat p; EvDo req] ++ t)) with (req :: requests t).
        cbn [map fst]. rewrite Hra.
        repeat split.
        -- rewrite Ht, Htr, <- app_assoc. reflexivity.
        -- now apply prefix_cons.
        -- now apply prefix_cons.
        -- f_equal. now apply Hall.
        -- f_equal. now apply Hall.
Qed.

(** ** Suffixes and the selection of assets *)

Lemma drop_append (s t : string) (k : nat) :
  StringsPkg.drop (String.length s + k) (s +:+ t) = StringsPkg.drop k t.
Proof. induction s as [|a s IH]; [reflexivity|]. rewrite append_cons. exact IH. Qed.

Lemma take_drop (n : nat) (s : string) :
  StringsPkg.take n s +:+ StringsPkg.drop n s = s.
Proof.
  revert s. induction n as [|n IH]; intros s; [reflexivity|].
  destruct s as [|a s]; [reflexivity|]. simpl. now rewrite append_cons, IH.
Qed.

Lemma HasSuffix_append (s suffix : string) (k : nat) :
  (k <= String.length suffix)%nat ->
  StringsPkg.HasSuffix (s +:+ suffix) (StringsPkg.drop k suffix)
  = String.eqb (StringsPkg.drop k suffix) (StringsPkg.drop k suffix).
Proof.
  intros Hk. unfold StringsPkg.HasSuffix, StringsPkg.len, StringsPkg.slice_from.
  assert (Hlen : String.length (StringsPkg.drop k suffix)
                 = (String.length suffix - k)%nat).
  { clear Hk. revert suffix. induction k as [|k IH]; intros [|a t]; simpl; auto. }
  rewrite length_append, Hlen.
  replace (Z.to_nat _) with (String.length s + k)%nat by lia.
  rewrite drop_append.
  replace (_ <=? _) with true by (symmetry; apply Z.leb_le; lia).
  reflexivity.
Qed.

Lemma HasSuffix_spec (s suffix : string) :
  StringsPkg.HasSuffix s suffix = true <-> exists p, s = p +:+ suffix.
Proof.
  split.
  - unfold StringsPkg.HasSuffix. intros H.
    apply andb_true_iff in H as [_ H]. apply String.eqb_eq in H.
    exists (StringsPkg.slice_to s (StringsPkg.len s - StringsPkg.len suffix)).
    rewrite <- H at 2. symmetry. apply take_drop.
  - intros [p ->].
    change suffix with (StringsPkg.drop 0 suffix) at 2.
    rewrite (HasSuffix_append p suffix 0); [|lia].
    apply String.eqb_refl.
Qed.

(** A name that ends in [.tar.gz] does not end in [.zip]. *)
Lemma HasSuffix_targz_not_zip (s : string) :
  StringsPkg.HasSuffix (s +:+ ".tar.gz") ".zip" = false.
Proof.
  unfold StringsPkg.HasSuffix, StringsPkg.len, StringsPkg.slice_from.
  rewrite length_append. simpl String.length.
  replace (Z.to_nat _) with (String.length s + 3)%nat by lia.
  rewrite drop_append. simpl. apply andb_false_r.
Qed.

Lemma asset_spec (e : DirEntry) (p ct : string) :
  asset e = Some (p, ct) <->
  IsDir e = false
  /\ p = PathPkg.Join [binDir; Name e]
  /\ ((exists s, Name e = s +:+ ".zip") /\ ct = contentTypeZIP
      \/ (exists s, Name e = s +:+ ".tar.gz") /\ ct = contentTypeTARGZ).
Proof.
  unfold asset. set (q := PathPkg.Join [binDir; Name e]).
  destruct (IsDir e).
  { split; [discriminate|]. now intros [? _]. }
  destruct (StringsPkg.HasSuffix (Name e) ".zip") eqn:Hzip.
  - split.
    + intros Heq. assert (p = q /\ ct = contentTypeZIP) as [-> ->]
        by (now inversion Heq).
      repeat split. left. split; [|reflexivity]. now apply HasSuffix_spec.
    + intros (_ & -> & [[_ ->]|[[s Hs] _]]); [reflexivity|].
      rewrite Hs, HasSuffix_targz_not_zip in Hzip. discriminate.
  - destruct (StringsPkg.HasSuffix (Name e) ".tar.gz") eqn:Htgz.
    + split.
      * intros Heq. assert (p = q /\ ct = contentTypeTARGZ) as [-> ->]
          by (now inversion Heq).
        repeat split. right. split; [|reflexivity]. now apply HasSuffix_spec.
      * intros (_ & -> & [[Hs _]|[_ ->]]); [|reflexivity].
        apply HasSuffix_spec in Hs. rewrite Hs in Hzip. discriminate.
    + split; [discriminate|].
      intros (_ & _ & [[Hs _]|[Hs _]]); apply HasSuffix_spec in Hs; congruence.
Qed.

Lemma asset_none_spec (e : DirEntry) :
  asset e = None <->
  IsDir e = true
  \/ ~ (exists s, Name e = s +:+ ".zip") /\ ~ (exists s, Name e = s +:+ ".tar.gz").
Proof.
  unfold asset. destruct (IsDir e); [split; auto|].
  destruct (StringsPkg.HasSuffix (Name e) ".zip") eqn:Hzip.
  { apply HasSuffix_spec in Hzip. split; [discriminate|].
    intros [?|[? _]]; [discriminate|contradiction]. }
  destruct (StringsPkg.HasSuffix (Name e) ".tar.gz") eqn:Htgz.
  { apply HasSuffix_spec in Htgz. split; [discriminate|].
    intros [?|[_ ?]]; [discriminate|contradiction]. }
  split; [intros _; right|reflexivity].
  split; intros Hs; apply HasSuffix_spec in Hs; congruence.
Qed.

(** A run of the loop without a failure is the uploads of the assets of
    the listing, one after the other. *)
Lemma uploaded_uploadEntries (c : client) (url : string)
    (entries : list DirEntry) (w w' : World) :
  uploaded c url (assets entries) w w'
  <-> uploadEntries c url entries w = (None, w').
Proof.
  revert w. induction entries as [|e entries IH]; intros w.
  - cbn. split; [now intros ->|now intros [= ->]].
  - unfold assets. cbn [omap list_omap]. fold (assets entries).
    destruct (asset e) as [[p ct]|] eqn:Ha; cbn [option_bind].
    + rewrite (uploadEntries_asset c url e entries p ct w Ha).
      cbn [uploaded fst snd].
      destruct (upload c url p ct w).1 as [err|].
      * split; [now intros [? _]|discriminate].
      * rewrite <- IH. tauto.
    + rewrite (uploadEntries_skip c url e entries Ha). apply IH.
Qed.

Lemma uploaded_trace (c : client) (url : string)
    (entries : list DirEntry) (w w' : World) :
  uploaded c url (assets entries) w w' ->
  exists t,
    trace w' = trace w ++ t
    /\ stats t = map fst (assets entries)
    /\ map request_asset (requests t) = map asset_request (assets entries).
Proof.
  intros H. apply uploaded_uploadEntries in H.
  destruct (uploadEntries_trace c url entries w) as (t & Ht & _ & _ & Hall).
  rewrite H in Ht, Hall. exists t. split; [exact Ht|]. now apply Hall.
Qed.

(** C1, as amended: an entry is an asset exactly when it is not a
    directory and its name ends in [.zip] (content type application/zip)
    or in [.tar.gz] (content type application/gzip); the loop stats and
    uploads assets only, in the order of the listing, each with its
    content type, and never a subdirectory or another file; it runs to
    its end exactly when the uploads of all the assets, made one after
    the other, succeed, and then every asset of the listing has been
    stat'd and uploaded. *)
Theorem uploadEntries_selection (c : client) (url : string)
    (entries : list DirEntry) (w : World) :
  (forall e p ct,
      asset e = Some (p, ct) <->
      IsDir e = false
      /\ p = PathPkg.Join [binDir; Name e]
      /\ ((exists s, Name e = s +:+ ".zip") /\ ct = contentTypeZIP
          \/ (exists s, Name e = s +:+ ".tar.gz") /\ ct = contentTypeTARGZ))
  /\ (forall e,
         asset e = None <->
         IsDir e = true
         \/ ~ (exists s, Name e = s +:+ ".zip")
            /\ ~ (exists s, Name e = s +:+ ".tar.gz"))
  /\ (exists t,
         trace (uploadEntries c url entries w).2 = trace w ++ t
         /\ stats t `prefix_of` map fst (assets entries)
         /\ map request_asset (requests t)
            `prefix_of` map asset_request (assets entries))
  /\ (forall w',
         uploaded c url (assets entries) w w'
         <-> uploadEntries c url entries w = (None, w'))
  /\ (forall w',
         uploaded c url (assets entries) w w' ->
         exists t,
           trace w' = trace w ++ t
           /\ stats t = map fst (assets entries)
           /\ map request_asset (requests t)
              = map asset_request (assets entries)).
Proof.
  split; [exact asset_spec|]. split; [exact asset_none_spec|]. split.
  - destruct (uploadEntries_trace c url entries w) as (t & Ht & Hs & Hr & _).
    now exists t.
  - split; intros w'; [apply uploaded_uploadEntries|apply uploaded_trace].
Qed.

(** The listing a.zip, b.tar.gz, c.txt, d/ of empty files with a server
    that accepts every upload: two uploads, with the content types of
    the suffixes. *)
Lemma uploadEntries_selection_witness :
  let w := empty_files_world true in
  exists w',
    uploaded demo_client demo_upload_url (assets demo_listing) w w'
    /\ uploadEntries demo_client demo_upload_url demo_listing w = (None, w')
    /\ exists t,
        trace w' = trace w ++ t
        /\ stats t = ["bin/a.zip"; "bin/b.tar.gz"]
        /\ map request_asset (requests t)
           = [(Some "bin/a.zip", "application/zip");
              (Some "bin/b.tar.gz", "application/gzip")].
Proof.
  intros w.
  exists (uploadEntries demo_client demo_upload_url demo_listing w).2.
  assert (Hup : uploaded demo_client demo_upload_url (assets demo_listing) w
                  (uploadEntries demo_client demo_upload_url demo_listing w).2).
  { vm_compute. repeat split. }
  destruct (uploadEntries_selection demo_client demo_upload_url demo_listing w)
    as (_ & _ & _ & Hrun & Htrace).
  split; [exact Hup|]. split; [now apply Hrun|]. now apply Htrace.
Defined.

Example uploadEntries_demo_listing :
  let run := uploadEntries demo_client demo_upload_url demo_listing
               (empty_files_world true) in
  run.1 = None
  /\ stats (trace run.2) = ["bin/a.zip"; "bin/b.tar.gz"]
  /\ map request_asset (requests (trace run.2))
     = [(Some "bin/a.zip", "application/zip");
        (Some "bin/b.tar.gz", "application/gzip")]
  /\ map (fun req => URLPkg.String_ (URL req)) (requests (trace run.2))
     = [demo_upload_url +:+ "?name=a.zip";
        demo_upload_url +:+ "?name=b.tar.gz"].
Proof. vm_compute. repeat split. Qed.

(** C1 as it is stated fails when an upload fails: with a server that
    refuses every upload, the listing a.zip, b.tar.gz, c.txt, d/ has
    two assets but only the first is ever touched. *)
Lemma uploadEntries_selection_counterexample :
  let run := uploadEntries demo_client demo_upload_url demo_listing
               (demo_world release_template false) in
  map fst (assets demo_listing) = ["bin/a.zip"; "bin/b.tar.gz"]
  /\ stats (trace run.2) = ["bin/a.zip"]
  /\ stats (trace run.2) <> map fst (assets demo_listing)
  /\ map request_asset (requests (trace run.2))
     <> map asset_request (assets demo_listing).
Proof. vm_compute. repeat split; discriminate. Qed.

Lemma stats_app (t1 t2 : list event) : stats (t1 ++ t2) = stats t1 ++ stats t2.
Proof. apply omap_app. Qed.

Lemma requests_app (t1 t2 : list event) :
  requests (t1 ++ t2) = requests t1 ++ requests t2.
Proof. apply omap_app. Qed.

(** C2: the entries are handled one after the other in the order of the
    listing; when the uploads of the assets before [e] have succeeded
    and the upload of [e] returns an error (as it does for any response
    other than 201), the loop ends in [log.Fatalf] in the very state
    that upload left: the files stat'd are those of the assets up to [e]
    and nothing is done for the entries after [e]. *)
Theorem uploadEntries_abort (c : client) (url : string)
    (pre : list DirEntry) (e : DirEntry) (post : list DirEntry)
    (w w1 : World) (p ct : string) :
  uploaded c url (assets pre) w w1 ->
  asset e = Some (p, ct) ->
  let up := upload c url p ct w1 in
  let run := uploadEntries c url (pre ++ e :: post) w in
  (forall err,
      up.1 = Some err ->
      run = (Some ("upload file " +:+ Name e +:+ ": " +:+ err), up.2))
  /\ (forall size u r0 resp,
         file_size w1 p = Ok size ->
         URLPkg.Parse url = Ok u ->
         http_NewRequestWithContext "POST"
           (URLPkg.String_ (upload_target u p)) = Ok r0 ->
         server w1 (trace w1 ++ [EvStat p])
           (upload_request_for c r0 p ct size) = Ok resp ->
         StatusCode resp <> StatusCreated ->
         exists err,
           run = (Some ("upload file " +:+ Name e +:+ ": " +:+ err), up.2))
  /\ (up.1 <> None ->
      exists t,
        trace run.2 = trace w ++ t
        /\ stats t = map fst (assets pre) ++ [p]
        /\ map request_asset (requests t)
           `prefix_of` map asset_request (assets pre ++ [(p, ct)])).
Proof.
  intros Hpre Ha up run.
  assert (Hrun : uploadEntries c url pre w = (None, w1))
    by now apply uploaded_uploadEntries.
  assert (Hstop : forall err,
             up.1 = Some err ->
             run = (Some ("upload file " +:+ Name e +:+ ": " +:+ err), up.2)).
  { intros err Herr. unfold run. rewrite uploadEntries_app, Hrun.
    cbn [fst snd]. rewrite (uploadEntries_asset c url e post p ct w1 Ha).
    fold up. now rewrite Herr. }
  split; [exact Hstop|]. split.
  - intros size u r0 resp Hsize Hu Hnew Hsrv Hst.
    eexists. apply Hstop. unfold up.
    rewrite upload_unfold, Hsize, Hu, Hnew. cbn [fst]. rewrite Hsrv.
    apply Z.eqb_neq in Hst. rewrite Hst. reflexivity.
  - intros Hfail. destruct up.1 as [err|] eqn:Herr; [|contradiction].
    rewrite (Hstop err eq_refl). cbn [snd].
    destruct (uploaded_trace c url pre w w1 Hpre) as (t1 & Ht1 & Hs1 & Hr1).
    destruct (upload_effects c url p ct w1)
      as [[Htr _]|(size & u & r0 & _ & _ & _ & Htr)]; fold up in Htr.
    + exists (t1 ++ [EvStat p]). rewrite stats_app, requests_app, Hs1.
      split; [now rewrite Htr, Ht1, <- app_assoc|]. split; [reflexivity|].
      cbn [requests omap list_omap]. rewrite app_nil_r, Hr1, map_app.
      now apply prefix_app_r.
    + set (req := upload_request_for c r0 p ct size) in Htr.
      exists (t1 ++ [EvStat p; EvDo req]).
      rewrite stats_app, requests_app, Hs1.
      split; [now rewrite Htr, Ht1, <- app_assoc|]. split; [reflexivity|].
      change (requests [EvStat p; EvDo req]) with [req].
      rewrite !map_app, Hr1.
      assert (Hra : request_asset req = asset_request (p, ct)).
      { unfold request_asset, asset_request, Header_Get, ValuesPkg.Get.
        cbn [req upload_request_for GetBody Header set_GetBody
               set_ContentLength Header_Set].
        now rewrite lookup_insert_eq. }
      cbn [map]. now rewrite Hra.
Qed.

(** Three archives and a server that refuses the second: the first is
    uploaded, the second fails, the third is never touched. *)
Lemma uploadEntries_abort_witness :
  let w := zip_only_world in
  let w1 := (upload demo_client demo_upload_url "bin/a.zip" "application/zip"
               w).2 in
  let run := uploadEntries demo_client demo_upload_url three_archives w in
  uploaded demo_client demo_upload_url (assets [mkDirEntry "a.zip" false]) w w1
  /\ asset (mkDirEntry "b.tar.gz" false)
     = Some ("bin/b.tar.gz", "application/gzip")
  /\ map fst (assets three_archives)
     = ["bin/a.zip"; "bin/b.tar.gz"; "bin/c.zip"]
  /\ run.1
     = Some ("upload file b.tar.gz: unexpected status code "
             +:+ demo_upload_url +:+ "?name=b.tar.gz"
             +:+ ": 415 Unsupported Media Type: zip archives only")
  /\ stats (trace run.2) = ["bin/a.zip"; "bin/b.tar.gz"].
Proof.
  intros w w1 run.
  assert (Hup : uploaded demo_client demo_upload_url
                  (assets [mkDirEntry "a.zip" false]) w w1)
    by (vm_compute; repeat split).
  split; [exact Hup|]. split; [reflexivity|]. split; [reflexivity|].
  destruct (uploadEntries_abort demo_client demo_upload_url
              [mkDirEntry "a.zip" false] (mkDirEntry "b.tar.gz" false)
              [mkDirEntry "c.zip" false] w w1
              "bin/b.tar.gz" "application/gzip" Hup eq_refl)
    as (Hstop & _ & _).
  specialize (Hstop ("unexpected status code " +:+ demo_upload_url
                     +:+ "?name=b.tar.gz"
                     +:+ ": 415 Unsupported Media Type: zip archives only")
                eq_refl).
  change (run = (Some ("upload file b.tar.gz: unexpected status code "
                       +:+ demo_upload_url +:+ "?name=b.tar.gz"
                       +:+ ": 415 Unsupported Media Type: zip archives only"),
                 (upload demo_client demo_upload_url "bin/b.tar.gz"
                    "application/gzip" w1).2)) in Hstop.
  rewrite Hstop. split; [reflexivity|]. vm_compute. reflexivity.
Defined.

(** ** Query escaping and the round trip of [Values.Encode] *)

Lemma mem_byte_append (c : ascii) (s t : string) :
  mem_byte c (s +:+ t) = mem_byte c s || mem_byte c t.
Proof.
  induction s as [|a s IH]; [reflexivity|].
  rewrite append_cons. simpl. now rewrite IH, orb_assoc.
Qed.

(** Unescaping undoes the escape of one byte. *)
Lemma hex_round_trip (c : ascii) :
  URLPkg.ishex (URLPkg.upperhex (byte_val c / 16)) = true
  /\ URLPkg.ishex (URLPkg.upperhex (byte_val c mod 16)) = true
  /\ URLPkg.hex_byte (URLPkg.upperhex (byte_val c / 16))
       (URLPkg.upperhex (byte_val c mod 16)) = c.
Proof. destruct c as [[] [] [] [] [] [] [] []]; vm_compute; repeat split. Qed.

Lemma unescaped_byte_plain (c : ascii) :
  URLPkg.shouldEscape c URLPkg.encodeQueryComponent = false ->
  Ascii.eqb c "%" = false /\ Ascii.eqb c "+" = false.
Proof.
  destruct c as [[] [] [] [] [] [] [] []]; vm_compute; intros H;
    try discriminate H; repeat split.
Qed.

Lemma unescape_percent (h1 h2 : ascii) (rest : string) :
  URLPkg.ishex h1 = true -> URLPkg.ishex h2 = true ->
  URLPkg.unescape (String "%" (String h1 (String h2 rest)))
    URLPkg.encodeQueryComponent
  = match URLPkg.unescape rest URLPkg.encodeQueryComponent with
    | Ok t => Ok (String (URLPkg.hex_byte h1 h2) t)
    | Err e => Err e
    end.
Proof.
  intros H1 H2. cbn [URLPkg.unescape]. 
  change (Ascii.eqb "%" "%") with true. cbv iota. rewrite H1, H2. reflexivity.
Qed.

Lemma unescape_plain (c : ascii) (rest : string) :
  Ascii.eqb c "%" = false ->
  URLPkg.unescape (String c rest) URLPkg.encodeQueryComponent
  = match URLPkg.unescape rest URLPkg.encodeQueryComponent with
    | Ok t => Ok (String (if Ascii.eqb c "+" then " "%char else c) t)
    | Err e => Err e
    end.
Proof.
  intros H. cbn [URLPkg.unescape]. rewrite H.
  change (URLPkg.is_host_mode URLPkg.encodeQueryComponent) with false.
  change (URLPkg.is_query_mode URLPkg.encodeQueryComponent) with true.
  cbn [andb]. now rewrite andb_true_r.
Qed.

Lemma unescape_escape_byte (c : ascii) (rest : string) :
  URLPkg.unescape
    (URLPkg.escape_byte c URLPkg.encodeQueryComponent +:+ rest)
    URLPkg.encodeQueryComponent
  = match URLPkg.unescape rest URLPkg.encodeQueryComponent with
    | Ok t => Ok (String c t)
    | Err e => Err e
    end.
Proof.
  unfold URLPkg.escape_byte.
  change (URLPkg.is_query_mode URLPkg.encodeQueryComponent) with true.
  rewrite andb_true_r.
  destruct (Ascii.eqb c " ") eqn:Hsp.
  - apply Ascii.eqb_eq in Hsp. subst c. rewrite append_cons, append_nil_l.
    now rewrite unescape_plain.
  - destruct (URLPkg.shouldEscape c URLPkg.encodeQueryComponent) eqn:Hesc.
    + destruct (hex_round_trip c) as (H1 & H2 & H3).
      rewrite !append_cons, append_nil_l, unescape_percent by assumption.
      now rewrite H3.
    + destruct (unescaped_byte_plain c Hesc) as [Hp Hplus].
      rewrite append_cons, append_nil_l, unescape_plain by assumption.
      now rewrite Hplus.
Qed.

Lemma QueryUnescape_QueryEscape (s : string) :
  URLPkg.QueryUnescape (URLPkg.QueryEscape s) = Ok s.
Proof.
  unfold URLPkg.QueryUnescape, URLPkg.QueryEscape.
  induction s as [|c s IH]; [reflexivity|].
  cbn [URLPkg.escape]. now rewrite unescape_escape_byte, IH.
Qed.

(** An escaped query component holds no separator of the query. *)
Lemma escape_byte_no_separator (c : ascii) :
  mem_byte "&" (URLPkg.escape_byte c URLPkg.encodeQueryComponent) = false
  /\ mem_byte ";" (URLPkg.escape_byte c URLPkg.encodeQueryComponent) = false
  /\ mem_byte "=" (URLPkg.escape_byte c URLPkg.encodeQueryComponent) = false.
Proof.
  destruct c as [[] [] [] [] [] [] [] []]; vm_compute; repeat split.
Qed.

Lemma QueryEscape_no_separator (s : string) :
  mem_byte "&" (URLPkg.QueryEscape s) = false
  /\ mem_byte ";" (URLPkg.QueryEscape s) = false
  /\ mem_byte "=" (URLPkg.QueryEscape s) = false.
Proof.
  unfold URLPkg.QueryEscape.
  induction s as [|c s (IH1 & IH2 & IH3)]; [repeat split|].
  cbn [URLPkg.escape]. rewrite !mem_byte_append, IH1, IH2, IH3, !orb_false_r.
  apply escape_byte_no_separator.
Qed.

(** Cutting at the first occurrence of a byte. *)
Lemma index_nat_append (c : ascii) (pre post : string) :
  mem_byte c pre = false ->
  StringsPkg.index_nat (pre +:+ String c post) (String c "")
  = Some (String.length pre).
Proof.
  induction pre as [|a pre IH]; intros Hpre.
  - rewrite append_nil_l. cbn [StringsPkg.index_nat].
    now rewrite HasPrefix_byte, Ascii.eqb_refl.
  - simpl in Hpre. apply orb_false_elim in Hpre as [Hca Hpre].
    rewrite append_cons. cbn [StringsPkg.index_nat].
    rewrite HasPrefix_byte, Ascii.eqb_sym, Hca, (IH Hpre). reflexivity.
Qed.

Lemma take_append (s t : string) :
  StringsPkg.take (String.length s) (s +:+ t) = s.
Proof.
  induction s as [|a s IH]; [now destruct t|].
  rewrite append_cons. simpl. now rewrite IH.
Qed.

Lemma split_append (c : ascii) (pre post : string) :
  mem_byte c pre = false ->
  URLPkg.split (pre +:+ String c post) c true = (pre, post).
Proof.
  intros Hpre. unfold URLPkg.split, StringsPkg.Index.
  rewrite (index_nat_append c pre post Hpre).
  replace (_ <? 0) with false by (symmetry; apply Z.ltb_ge; lia).
  unfold StringsPkg.slice_to, StringsPkg.slice_from.
  rewrite Nat2Z.id, take_append.
  replace (Z.to_nat _) with (String.length pre + 1)%nat by lia.
  now rewrite drop_append.
Qed.

Lemma Contains_byte_false (c : ascii) (s : string) :
  mem_byte c s = false -> StringsPkg.Contains s (String c "") = false.
Proof.
  intros H. unfold StringsPkg.Contains, StringsPkg.Index.
  now rewrite (index_byte_missing c s H).
Qed.

Lemma split_missing (c : ascii) (s : string) (cutc : bool) :
  mem_byte c s = false -> URLPkg.split s c cutc = (s, "").
Proof.
  intros H. unfold URLPkg.split, StringsPkg.Index.
  now rewrite (index_byte_missing c s H).
Qed.

Lemma HasSuffix_byte_missing (c : ascii) (s : string) :
  mem_byte c s = false -> StringsPkg.HasSuffix s (String c "") = false.
Proof.
  intros H. destruct (StringsPkg.HasSuffix s (String c "")) eqn:Hs; [|reflexivity].
  apply HasSuffix_spec in Hs as [p ->].
  rewrite mem_byte_append in H. cbn [mem_byte] in H.
  rewrite Ascii.eqb_refl in H. cbn in H. now rewrite orb_true_r in H.
Qed.

Lemma SplitByte_one (c : ascii) (s : string) :
  mem_byte c s = false -> StringsPkg.SplitByte s c = [s].
Proof.
  induction s as [|a s IH]; [reflexivity|].
  simpl. intros H. apply orb_false_elim in H as [Hca H].
  rewrite Ascii.eqb_sym, Hca, (IH H). reflexivity.
Qed.

Lemma SplitByte_append (c : ascii) (s rest : string) :
  mem_byte c s = false ->
  StringsPkg.SplitByte (s +:+ String c rest) c
  = s :: StringsPkg.SplitByte rest c.
Proof.
  induction s as [|a s IH]; intros H.
  - rewrite append_nil_l. simpl. now rewrite Ascii.eqb_refl.
  - simpl in H. apply orb_false_elim in H as [Hca H].
    rewrite append_cons. simpl. rewrite Ascii.eqb_sym, Hca, (IH H).
    reflexivity.
Qed.

Lemma SplitByte_Join (c : ascii) (pieces : list string) :
  pieces <> [] ->
  Forall (fun p => mem_byte c p = false) pieces ->
  StringsPkg.SplitByte (StringsPkg.Join pieces (String c "")) c = pieces.
Proof.
  induction pieces as [|p pieces IH]; [contradiction|].
  intros _ Hall. inversion Hall as [|? ? Hp Hps]; subst.
  destruct pieces as [|q pieces].
  - simpl. now apply SplitByte_one.
  - change (StringsPkg.Join (p :: q :: pieces) (String c ""))
      with (p +:+ String c (StringsPkg.Join (q :: pieces) (String c ""))).
    rewrite (SplitByte_append c p _ Hp). f_equal. now apply IH.
Qed.

(** One [key=value] piece of an encoded query is read back as it was
    written. *)
Lemma parse_piece_pair (m : gmap string (list string)) (k v : string) :
  ValuesPkg.parse_piece m
    (URLPkg.QueryEscape k +:+ "=" +:+ URLPkg.QueryEscape v)
  = ValuesPkg.Add m k v.
Proof.
  destruct (QueryEscape_no_separator k) as (_ & Hk2 & Hk3).
  destruct (QueryEscape_no_separator v) as (_ & Hv2 & _).
  unfold ValuesPkg.parse_piece.
  rewrite Contains_byte_false.
  2:{ rewrite mem_byte_append, Hk2. simpl. exact Hv2. }
  replace (String.eqb _ "") with false.
  2:{ symmetry. apply String.eqb_neq. now destruct (URLPkg.QueryEscape k). }
  change ("=" +:+ URLPkg.QueryEscape v) with (String "=" (URLPkg.QueryEscape v)).
  rewrite (split_append "=" _ _ Hk3).
  now rewrite !QueryUnescape_QueryEscape.
Qed.

Lemma encode_key_pieces (kv : string * list string) :
  Forall (fun p => mem_byte "&" p = false) (ValuesPkg.encode_key kv).
Proof.
  unfold ValuesPkg.encode_key. apply Forall_map, Forall_forall.
  intros v _.
  destruct (QueryEscape_no_separator kv.1) as (Hk & _).
  destruct (QueryEscape_no_separator v) as (Hv & _).
  rewrite mem_byte_append, Hk. simpl. exact Hv.
Qed.

Lemma fold_parse_encode_key (kv : string * list string)
    (m : gmap string (list string)) :
  fold_left ValuesPkg.parse_piece (ValuesPkg.encode_key kv) m
  = add_values m kv.
Proof.
  unfold ValuesPkg.encode_key, add_values.
  revert m. induction kv.2 as [|v vs IH]; intros m; [reflexivity|].
  simpl. now rewrite parse_piece_pair, IH.
Qed.

Lemma fold_parse_encoded (l : list (string * list string))
    (m : gmap string (list string)) :
  fold_left ValuesPkg.parse_piece (concat (map ValuesPkg.encode_key l)) m
  = fold_left add_values l m.
Proof.
  revert m. induction l as [|kv l IH]; intros m; [reflexivity|].
  simpl. now rewrite fold_left_app, fold_parse_encode_key, IH.
Qed.

(** Parsing an encoded query adds back, key after key in sorted order,
    every value of the map. *)
Lemma ParseQuery_Encode (v : gmap string (list string)) :
  ValuesPkg.ParseQuery (ValuesPkg.Encode v)
  = fold_left add_values (merge_sort ValuesPkg.key_le (map_to_list v)) ∅.
Proof.
  unfold ValuesPkg.ParseQuery, ValuesPkg.Encode.
  rewrite <- fold_parse_encoded.
  destruct (concat _) as [|p ps] eqn:Hps; [reflexivity|].
  change "&" with (String "&" ""). rewrite SplitByte_Join; [reflexivity|discriminate|].
  rewrite <- Hps. apply Forall_concat, Forall_map, Forall_forall.
  intros kv _. apply encode_key_pieces.
Qed.

Lemma lookup_Add_ne (m : gmap string (list string)) (k k' v : string) :
  k <> k' -> ValuesPkg.Add m k' v !! k = m !! k.
Proof. intros H. unfold ValuesPkg.Add. now rewrite lookup_insert_ne. Qed.

Lemma lookup_add_values_ne (m : gmap string (list string))
    (kv : string * list string) (k : string) :
  k <> kv.1 -> add_values m kv !! k = m !! k.
Proof.
  intros H. unfold add_values. revert m.
  induction kv.2 as [|v vs IH]; intros m; [reflexivity|].
  simpl. now rewrite IH, lookup_Add_ne.
Qed.

Lemma lookup_fold_add_values_other (l : list (string * list string))
    (m : gmap string (list string)) (k : string) :
  k ∉ map fst l -> fold_left add_values l m !! k = m !! k.
Proof.
  revert m. induction l as [|kv l IH]; intros m Hk; [reflexivity|].
  simpl in *. apply not_elem_of_cons in Hk as [Hne Hk].
  now rewrite (IH _ Hk), lookup_add_values_ne.
Qed.

Lemma lookup_fold_add_values (l : list (string * list string))
    (m : gmap string (list string)) (k v : string) :
  NoDup (map fst l) -> (k, [v]) ∈ l -> m !! k = None ->
  fold_left add_values l m !! k = Some [v].
Proof.
  revert m. induction l as [|kv l IH]; intros m Hnd Hin Hm.
  - now apply elem_of_nil in Hin.
  - simpl in *. apply NoDup_cons in Hnd as [Hkv Hnd].
    apply elem_of_cons in Hin as [<-|Hin].
    + rewrite lookup_fold_add_values_other by exact Hkv.
      unfold add_values, ValuesPkg.Add. simpl.
      now rewrite lookup_insert_eq, Hm.
    + assert (Hne : k <> kv.1).
      { intros ->. apply Hkv. apply list_elem_of_fmap. now exists (kv.1, [v]). }
      apply IH; [exact Hnd|exact Hin|]. now rewrite lookup_add_values_ne.
Qed.

(** A key with one value survives the round trip through the encoded
    query. *)
Lemma ParseQuery_Encode_lookup (vs : gmap string (list string)) (k v : string) :
  vs !! k = Some [v] ->
  ValuesPkg.ParseQuery (ValuesPkg.Encode vs) !! k = Some [v].
Proof.
  intros Hk. rewrite ParseQuery_Encode.
  assert (Hperm : merge_sort ValuesPkg.key_le (map_to_list vs)
                  ≡ₚ map_to_list vs) by apply merge_sort_Permutation.
  apply lookup_fold_add_values.
  - rewrite Hperm. apply NoDup_fst_map_to_list.
  - rewrite Hperm. now apply elem_of_map_to_list.
  - apply lookup_empty.
Qed.

(** ** Splitting and joining paths *)


Lemma Join_cons (e : string) (es : list string) (sep : string) :
  es <> [] ->
  StringsPkg.Join (e :: es) sep = e +:+ sep +:+ StringsPkg.Join es sep.
Proof. destruct es; [contradiction|reflexivity]. Qed.






(** ** The query of a URL that is printed and parsed again *)

Lemma all_bytes_append (p : ascii -> bool) (s t : string) :
  URLPkg.all_bytes p (s +:+ t) = URLPkg.all_bytes p s && URLPkg.all_bytes p t.
Proof.
  induction s as [|a s IH]; [reflexivity|].
  rewrite append_cons. cbn [URLPkg.all_bytes]. now rewrite IH, andb_assoc.
Qed.

Lemma markless_nil : markless "".
Proof. now split. Qed.

Lemma markless_append (s t : string) :
  markless s -> markless t -> markless (s +:+ t).
Proof.
  intros [H1 H2] [H3 H4]. split; rewrite mem_byte_append.
  - now rewrite H1, H3.
  - now rewrite H2, H4.
Qed.

Lemma markless_append_inv (s t : string) :
  markless (s +:+ t) -> markless s /\ markless t.
Proof.
  intros [H1 H2]. rewrite mem_byte_append in H1, H2.
  apply orb_false_elim in H1 as [? ?]. apply orb_false_elim in H2 as [? ?].
  now repeat split.
Qed.

Lemma markless_bytes (p : ascii -> bool) (s : string) :
  (forall c, p c = true -> Ascii.eqb c "?" = false /\ Ascii.eqb c "#" = false) ->
  URLPkg.all_bytes p s = true -> markless s.
Proof.
  intros Hp. induction s as [|a s IH]; [intros _; apply markless_nil|].
  cbn [URLPkg.all_bytes]. intros H. apply andb_true_iff in H as [Ha H].
  destruct (Hp a Ha) as [Hq Hh]. destruct (IH H) as [IH1 IH2].
  split; cbn [mem_byte]; rewrite Ascii.eqb_sym.
  - now rewrite Hq, IH1.
  - now rewrite Hh, IH2.
Qed.

Lemma scheme_char_plain (c : ascii) :
  scheme_char c = true -> Ascii.eqb c "?" = false /\ Ascii.eqb c "#" = false.
Proof.
  destruct c as [[] [] [] [] [] [] [] []]; vm_compute; intros H;
    try discriminate H; split; reflexivity.
Qed.

Lemma lower_byte_mark (c : ascii) :
  Ascii.eqb (StringsPkg.lower_byte c) "?" = Ascii.eqb c "?"
  /\ Ascii.eqb (StringsPkg.lower_byte c) "#" = Ascii.eqb c "#".
Proof. destruct c as [[] [] [] [] [] [] [] []]; vm_compute; split; reflexivity. Qed.

Lemma markless_ToLower (s : string) :
  markless s -> markless (StringsPkg.ToLower s).
Proof.
  unfold markless. induction s as [|a s IH]; [trivial|].
  cbn [StringsPkg.ToLower mem_byte]. destruct (lower_byte_mark a) as [H1 H2].
  rewrite !(Ascii.eqb_sym _ (StringsPkg.lower_byte a)), H1, H2.
  rewrite !(Ascii.eqb_sym a).
  intros [H3 H4]. apply orb_false_elim in H3 as [? ?].
  apply orb_false_elim in H4 as [? ?].
  destruct IH as [IH1 IH2]; [now split|]. split.
  - rewrite IH1. now rewrite orb_false_r.
  - rewrite IH2. now rewrite orb_false_r.
Qed.

(** What [getScheme] returns: no scheme and the whole string, or the
    scheme before a colon and what follows the colon. *)
Lemma getScheme_from_spec (rest whole pre : string) (i : nat)
    (s r : string) :
  whole = pre +:+ rest ->
  String.length pre = i ->
  URLPkg.all_bytes scheme_char pre = true ->
  URLPkg.getScheme_from i rest whole = Ok (s, r) ->
  (s = "" /\ r = whole)
  \/ (whole = s +:+ String ":" r /\ URLPkg.all_bytes scheme_char s = true).
Proof.
  revert pre i. induction rest as [|c rest IH]; intros pre i Hw Hi Hpre;
    cbn [URLPkg.getScheme_from].
  - intros [= <- <-]. now left.
  - assert (Hnext : forall (Hc : scheme_char c = true),
               URLPkg.getScheme_from (S i) rest whole = Ok (s, r) ->
               (s = "" /\ r = whole)
               \/ (whole = s +:+ String ":" r
                   /\ URLPkg.all_bytes scheme_char s = true)).
    { intros Hc. apply (IH (pre +:+ String c "")).
      - now rewrite append_assoc.
      - rewrite length_append. simpl. lia.
      - rewrite all_bytes_append, Hpre. cbn [URLPkg.all_bytes].
        now rewrite Hc. }
    destruct (is_lower c || is_upper c) eqn:Hl.
    { apply Hnext. unfold scheme_char. now rewrite Hl. }
    destruct (is_digit c || mem_byte c "+-.") eqn:Hd.
    { destruct (Nat.eqb i 0); [intros [= <- <-]; now left|].
      apply Hnext. unfold scheme_char.
      rewrite <- orb_assoc, Hd. apply orb_true_r. }
    destruct (Ascii.eqb c ":") eqn:Hc.
    + apply Ascii.eqb_eq in Hc. subst c.
      destruct (Nat.eqb i 0); [discriminate|].
      intros [= <- <-]. right. subst whole i. rewrite take_append.
      now split.
    + intros [= <- <-]. now left.
Qed.

Lemma getScheme_spec (whole s r : string) :
  URLPkg.getScheme whole = Ok (s, r) ->
  (s = "" /\ r = whole)
  \/ (whole = s +:+ String ":" r /\ URLPkg.all_bytes scheme_char s = true).
Proof. now apply (getScheme_from_spec whole whole "" 0). Qed.

(** The first occurrence of a byte is at one place only. *)
Lemma first_byte_unique (c : ascii) (x y p r : string) :
  mem_byte c x = false -> mem_byte c p = false ->
  x +:+ String c y = p +:+ r ->
  exists x', r = x' +:+ String c y /\ x = p +:+ x'.
Proof.
  revert x. induction p as [|a p IH]; intros x Hx Hp Heq.
  - exists x. now split.
  - cbn [mem_byte] in Hp. apply orb_false_elim in Hp as [Hca Hp].
    destruct x as [|b x].
    + rewrite append_nil_l, append_cons in Heq. injection Heq as -> _.
      now rewrite Ascii.eqb_refl in Hca.
    + rewrite !append_cons in Heq. injection Heq as -> Heq.
      cbn [mem_byte] in Hx. apply orb_false_elim in Hx as [_ Hx].
      destruct (IH x Hx Hp Heq) as (x' & Hr & Hxp).
      exists x'. split; [exact Hr|]. now rewrite append_cons, Hxp.
Qed.

Lemma HasSuffix_append_long (x q suffix : string) :
  (String.length suffix <= String.length q)%nat ->
  StringsPkg.HasSuffix (x +:+ q) suffix = StringsPkg.HasSuffix q suffix.
Proof.
  intros Hlen. unfold StringsPkg.HasSuffix, StringsPkg.len, StringsPkg.slice_from.
  rewrite length_append.
  replace (Z.to_nat (Z.of_nat (String.length x + String.length q)
                     - Z.of_nat (String.length suffix)))
    with (String.length x + (String.length q - String.length suffix))%nat
    by lia.
  rewrite drop_append.
  replace (Z.to_nat (Z.of_nat (String.length q)
                     - Z.of_nat (String.length suffix)))
    with (String.length q - String.length suffix)%nat by lia.
  f_equal. apply eq_true_iff_eq. rewrite !Z.leb_le. lia.
Qed.

(** A query that is not empty and holds no [?] is what [parse] finds
    after the first [?]. *)
Lemma parse_RawQuery (x q : string) (u : URLPkg.URL) :
  mem_byte "?" x = false -> mem_byte "?" q = false -> q <> "" ->
  URLPkg.parse (x +:+ String "?" q) = Ok u ->
  URLPkg.RawQuery u = q.
Proof.
  intros Hx Hq Hne. unfold URLPkg.parse.
  destruct (URLPkg.stringContainsCTLByte _); [discriminate|].
  destruct (String.eqb _ "*") eqn:Hstar.
  { apply String.eqb_eq in Hstar. apply (f_equal (mem_byte "?")) in Hstar.
    rewrite mem_byte_append in Hstar. cbn in Hstar.
    rewrite orb_true_r in Hstar. discriminate. }
  destruct (URLPkg.getScheme _) as [[s r]|e] eqn:Hsch; [|discriminate].
  assert (Hr : exists x', r = x' +:+ String "?" q /\ mem_byte "?" x' = false).
  { destruct (getScheme_spec _ _ _ Hsch) as [[_ ->]|[Hw Hs]]; [now exists x|].
    assert (Hsq : mem_byte "?" (s +:+ ":") = false).
    { rewrite mem_byte_append.
      destruct (markless_bytes scheme_char s scheme_char_plain Hs) as [-> _].
      reflexivity. }
    change (s +:+ String ":" r) with (s +:+ (":" +:+ r)) in Hw.
    rewrite <- append_assoc in Hw.
    destruct (first_byte_unique "?" x q _ r Hx Hsq Hw) as (x' & Hr & Hxx).
    exists x'. split; [exact Hr|]. rewrite Hxx, mem_byte_append in Hx.
    now apply orb_false_elim in Hx as [_ ?]. }
  destruct Hr as (x' & -> & Hx').
  assert (Hsuf : StringsPkg.HasSuffix (x' +:+ String "?" q) "?" = false).
  { destruct q as [|b q]; [contradiction|].
    change (x' +:+ String "?" (String b q))
      with (x' +:+ ("?" +:+ String b q)).
    rewrite <- append_assoc, HasSuffix_append_long by (simpl; lia).
    now apply HasSuffix_byte_missing. }
  rewrite Hsuf, (split_append "?" x' q Hx'). cbn [andb]. cbv beta iota zeta.
  destruct (negb _ && negb _); [now intros [= <-]|].
  destruct (negb _ && _ && _); [discriminate|].
  destruct (_ && StringsPkg.HasPrefix x' "//").
  - destruct (URLPkg.split _ "/" false) as [authority rest].
    destruct (URLPkg.parseAuthority authority) as [[user host]|e];
      [|discriminate].
    unfold URLPkg.setPath. destruct (URLPkg.unescape rest _); [|discriminate].
    now intros [= <-].
  - unfold URLPkg.setPath. destruct (URLPkg.unescape x' _); [|discriminate].
    now intros [= <-].
Qed.

Lemma Parse_RawQuery (x q F : string) (u : URLPkg.URL) :
  markless x -> markless q -> q <> "" ->
  F = "" \/ (exists f, F = String "#" f) ->
  URLPkg.Parse (x +:+ String "?" q +:+ F) = Ok u ->
  URLPkg.RawQuery u = q.
Proof.
  intros [Hx1 Hx2] [Hq1 Hq2] Hne HF. unfold URLPkg.Parse.
  assert (Hhash : mem_byte "#" (x +:+ String "?" q) = false).
  { rewrite mem_byte_append, Hx2. cbn [mem_byte orb]. exact Hq2. }
  assert (Hcut : exists frag,
             URLPkg.split (x +:+ String "?" q +:+ F) "#" true
             = (x +:+ String "?" q, frag)).
  { destruct HF as [->|[f ->]].
    - exists "". rewrite append_nil_r. now apply split_missing.
    - exists f. change (x +:+ String "?" q +:+ String "#" f)
        with (x +:+ (String "?" q +:+ String "#" f)).
      rewrite <- append_assoc. now apply split_append. }
  destruct Hcut as [frag ->].
  destruct (URLPkg.parse _) as [url|e] eqn:Hparse; [|discriminate].
  apply parse_RawQuery in Hparse; [|assumption..].
  destruct (String.eqb frag ""); [now intros [= <-]|].
  unfold URLPkg.setFragment. destruct (URLPkg.unescape frag _); [|discriminate].
  now intros [= <-].
Qed.

(** Cutting at a byte leaves a first part without it, which starts the
    string. *)
Lemma split_fst_spec (c : ascii) (s : string) :
  mem_byte c (URLPkg.split s c true).1 = false
  /\ exists t, s = (URLPkg.split s c true).1 +:+ t.
Proof.
  destruct (mem_byte c s) eqn:Hmem.
  - destruct (index_byte_found c s Hmem) as (pre & post & Hs & Hpre & _ & _).
    rewrite Hs, (split_append c pre post Hpre). cbn [fst].
    split; [exact Hpre|]. now exists (String c post).
  - rewrite (split_missing c s true Hmem). cbn [fst].
    split; [exact Hmem|]. exists "". now rewrite append_nil_r.
Qed.

Lemma CountByte_nonneg (s : string) (c : ascii) : 0 <= StringsPkg.CountByte s c.
Proof.
  induction s as [|a s IH]; cbn [StringsPkg.CountByte]; [lia|].
  destruct (Ascii.eqb a c); lia.
Qed.

Lemma CountByte_append (s t : string) (c : ascii) :
  StringsPkg.CountByte (s +:+ t) c
  = StringsPkg.CountByte s c + StringsPkg.CountByte t c.
Proof.
  induction s as [|a s IH]; [reflexivity|].
  rewrite append_cons. cbn [StringsPkg.CountByte]. rewrite IH. lia.
Qed.

Lemma CountByte_zero (s : string) (c : ascii) :
  StringsPkg.CountByte s c = 0 -> mem_byte c s = false.
Proof.
  induction s as [|a s IH]; [reflexivity|].
  cbn [StringsPkg.CountByte mem_byte]. pose proof (CountByte_nonneg s c).
  rewrite (Ascii.eqb_sym c a). destruct (Ascii.eqb a c); [lia|].
  intros H0. apply IH. lia.
Qed.

(** The scheme and the opaque part of a parsed URL hold no [?] and no
    [#]. *)
Lemma parse_markless (s0 : string) (u : URLPkg.URL) :
  mem_byte "#" s0 = false ->
  URLPkg.parse s0 = Ok u ->
  markless (URLPkg.Scheme u) /\ markless (URLPkg.Opaque u).
Proof.
  intros Hh. unfold URLPkg.parse.
  destruct (URLPkg.stringContainsCTLByte _); [discriminate|].
  destruct (String.eqb _ "*");
    [intros [= <-]; split; apply markless_nil|].
  destruct (URLPkg.getScheme _) as [[s r]|e] eqn:Hsch; [|discriminate].
  assert (Hsr : markless (StringsPkg.ToLower s) /\ mem_byte "#" r = false).
  { destruct (getScheme_spec _ _ _ Hsch) as [[-> ->]|[Hw Hs]].
    - split; [apply markless_nil|exact Hh].
    - split.
      + apply markless_ToLower.
        exact (markless_bytes scheme_char s scheme_char_plain Hs).
      + rewrite Hw, mem_byte_append in Hh.
        apply orb_false_elim in Hh as [_ Hh]. cbn [mem_byte] in Hh.
        now apply orb_false_elim in Hh as [_ ?]. }
  destruct Hsr as [Hs Hr]. cbv zeta.
  assert (Hrest : forall P : string * bool * string -> Prop,
             (forall rest fq rq, markless rest -> P (rest, fq, rq)) ->
             P (if StringsPkg.HasSuffix r "?"
                   && (StringsPkg.CountByte r "?" =? 1)
                then (StringsPkg.slice_to r (StringsPkg.len r - 1), true, "")
                else let '(r', q) := URLPkg.split r "?" true in
                     (r', false, q))).
  { intros P HP.
    destruct (StringsPkg.HasSuffix r "?" && _) eqn:Hforce.
    - apply HP. apply andb_true_iff in Hforce as [Hsuf Hcount].
      apply HasSuffix_spec in Hsuf as [p ->]. apply Z.eqb_eq in Hcount.
      rewrite CountByte_append in Hcount. cbn in Hcount.
      unfold StringsPkg.slice_to, StringsPkg.len. rewrite length_append.
      replace (Z.to_nat _) with (String.length p) by (simpl; lia).
      rewrite take_append. split.
      + apply CountByte_zero. lia.
      + rewrite mem_byte_append in Hr. now apply orb_false_elim in Hr as [? _].
    - destruct (split_fst_spec "?" r) as [Hq [t Ht]].
      destruct (URLPkg.split r "?" true) as [r' q]. cbn [fst] in Hq, Ht.
      apply HP. split; [exact Hq|].
      rewrite Ht, mem_byte_append in Hr.
      now apply orb_false_elim in Hr as [? _]. }
  apply Hrest. clear Hrest. intros rest fq rq Hm.
  destruct (negb _ && negb _);
    [intros [= <-]; now split|].
  destruct (negb _ && _ && _); [discriminate|].
  destruct (_ && StringsPkg.HasPrefix rest "//").
  - destruct (URLPkg.split _ "/" false) as [authority rest'].
    destruct (URLPkg.parseAuthority authority) as [[user host]|e];
      [|discriminate].
    unfold URLPkg.setPath. destruct (URLPkg.unescape rest' _); [|discriminate].
    intros [= <-]. split; [exact Hs|apply markless_nil].
  - unfold URLPkg.setPath. destruct (URLPkg.unescape rest _); [|discriminate].
    intros [= <-]. split; [exact Hs|apply markless_nil].
Qed.

Lemma Parse_markless (s : string) (u : URLPkg.URL) :
  URLPkg.Parse s = Ok u ->
  markless (URLPkg.Scheme u) /\ markless (URLPkg.Opaque u).
Proof.
  unfold URLPkg.Parse. destruct (split_fst_spec "#" s) as [Hh _].
  destruct (URLPkg.split s "#" true) as [s0 frag]. cbn [fst] in Hh.
  destruct (URLPkg.parse s0) as [url|e] eqn:Hparse; [|discriminate].
  apply (parse_markless _ _ Hh) in Hparse.
  destruct (String.eqb frag ""); [now intros [= <-]|].
  unfold URLPkg.setFragment. destruct (URLPkg.unescape frag _); [|discriminate].
  now intros [= <-].
Qed.

(** What [String] prints before the query holds no [?] and no [#]. *)
Lemma escape_byte_markless (c : ascii) :
  markless (URLPkg.escape_byte c URLPkg.encodeHost)
  /\ markless (URLPkg.escape_byte c URLPkg.encodeUserPassword)
  /\ markless (URLPkg.escape_byte c URLPkg.encodePath)
  /\ markless (URLPkg.escape_byte c URLPkg.encodeQueryComponent).
Proof.
  destruct c as [[] [] [] [] [] [] [] []]; vm_compute; repeat split.
Qed.

Lemma escape_markless (s : string) :
  markless (URLPkg.escape s URLPkg.encodeHost)
  /\ markless (URLPkg.escape s URLPkg.encodeUserPassword)
  /\ markless (URLPkg.escape s URLPkg.encodePath)
  /\ markless (URLPkg.escape s URLPkg.encodeQueryComponent).
Proof.
  induction s as [|c s (IH1 & IH2 & IH3 & IH4)];
    [repeat split|].
  destruct (escape_byte_markless c) as (H1 & H2 & H3 & H4).
  cbn [URLPkg.escape]. repeat split; now apply markless_append.
Qed.

Lemma validEncoded_byte (c : ascii) :
  mem_byte c "!$&'()*+,;=:@[]%"
  || negb (URLPkg.shouldEscape c URLPkg.encodePath) = true ->
  Ascii.eqb c "?" = false /\ Ascii.eqb c "#" = false.
Proof.
  destruct c as [[] [] [] [] [] [] [] []]; vm_compute; intros H;
    try discriminate H; split; reflexivity.
Qed.

Lemma validEncoded_markless (s : string) :
  URLPkg.validEncoded s URLPkg.encodePath = true -> markless s.
Proof.
  induction s as [|c s IH]; [intros _; apply markless_nil|].
  cbn [URLPkg.validEncoded]. intros H. apply andb_true_iff in H as [Hc H].
  destruct (validEncoded_byte c Hc) as [Hq Hh]. destruct (IH H) as [IH1 IH2].
  split; cbn [mem_byte]; rewrite Ascii.eqb_sym.
  - now rewrite Hq, IH1.
  - now rewrite Hh, IH2.
Qed.

Lemma EscapedPath_markless (u : URLPkg.URL) : markless (URLPkg.EscapedPath u).
Proof.
  unfold URLPkg.EscapedPath.
  destruct (negb _ && URLPkg.validEncoded _ _ && _) eqn:Hraw.
  - apply andb_true_iff in Hraw as [Hraw _].
    apply andb_true_iff in Hraw as [_ Hraw]. now apply validEncoded_markless.
  - destruct (String.eqb _ "*"); [now split|]. apply escape_markless.
Qed.

Lemma Userinfo_String_markless (ui : URLPkg.Userinfo) :
  markless (URLPkg.Userinfo_String ui).
Proof.
  unfold URLPkg.Userinfo_String. apply markless_append; [apply escape_markless|].
  destruct (URLPkg.passwordSet ui); [|apply markless_nil].
  apply markless_append; [now split|apply escape_markless].
Qed.

Ltac markless_tac :=
  repeat first
    [ assumption
    | apply markless_nil
    | apply EscapedPath_markless
    | apply Userinfo_String_markless
    | apply escape_markless
    | match goal with
      | |- markless (_ +:+ _) => apply markless_append
      | |- markless (if ?c then _ else _) => destruct c
      | |- markless (match ?o with Some _ => _ | None => _ end) => destruct o
      end
    | (split; reflexivity) ].

Lemma String_query_shape (u : URLPkg.URL) (q : string) :
  markless (URLPkg.Scheme u) -> markless (URLPkg.Opaque u) -> q <> "" ->
  exists x F,
    URLPkg.String_ (set_RawQuery u q) = x +:+ String "?" q +:+ F
    /\ markless x
    /\ (F = "" \/ exists f, F = String "#" f).
Proof.
  intros Hs Ho Hq.
  assert (Hne : URLPkg.nonempty q = true).
  { unfold URLPkg.nonempty. apply negb_true_iff. now apply String.eqb_neq. }
  unfold URLPkg.String_.
  cbn [set_RawQuery URLPkg.Scheme URLPkg.Opaque URLPkg.User URLPkg.Host
         URLPkg.Path URLPkg.RawPath URLPkg.ForceQuery URLPkg.RawQuery
         URLPkg.Fragment URLPkg.RawFragment].
  rewrite Hne, orb_true_r. cbv beta zeta.
  match goal with
  | |- context [?b +:+ "?" +:+ q] => set (B := b)
  end.
  assert (HB : markless B) by (subst B; markless_tac).
  clearbody B.
  destruct (URLPkg.nonempty (URLPkg.Fragment u)).
  - eexists B, (String "#" _). split; [|split; [exact HB|right; eauto]].
    rewrite append_assoc. reflexivity.
  - exists B, "". split; [|split; [exact HB|now left]].
    now rewrite append_nil_r.
Qed.

(** An encoded query holds no [?] and no [#], and is not empty when a
    key has a value. *)
Lemma Join_markless (l : list string) (sep : string) :
  Forall markless l -> markless sep -> markless (StringsPkg.Join l sep).
Proof.
  intros Hl Hsep. induction Hl as [|p l Hp Hl IH]; [apply markless_nil|].
  destruct l as [|p' l]; [exact Hp|].
  rewrite Join_cons by discriminate.
  apply markless_append; [exact Hp|]. now apply markless_append.
Qed.

Lemma Encode_markless (v : gmap string (list string)) :
  markless (ValuesPkg.Encode v).
Proof.
  unfold ValuesPkg.Encode. apply Join_markless; [|now split].
  apply Forall_concat, Forall_map, Forall_forall. intros kv _.
  unfold ValuesPkg.encode_key. apply Forall_map, Forall_forall. intros x _.
  apply markless_append; [apply escape_markless|].
  apply markless_append; [now split|apply escape_markless].
Qed.

Lemma Join_mem (c : ascii) (l : list string) (sep p : string) :
  In p l -> mem_byte c p = true -> mem_byte c (StringsPkg.Join l sep) = true.
Proof.
  intros Hin Hp. induction l as [|p0 l IH]; [contradiction|].
  destruct l as [|p1 l].
  - destruct Hin as [->|[]]. exact Hp.
  - rewrite Join_cons, !mem_byte_append by discriminate.
    destruct Hin as [->|Hin]; [now rewrite Hp|].
    rewrite (IH Hin). now rewrite !orb_true_r.
Qed.

Lemma Encode_nonempty (v : gmap string (list string)) (k x : string) :
  v !! k = Some [x] -> ValuesPkg.Encode v <> "".
Proof.
  intros Hk Hempty.
  assert (Hmem : mem_byte "=" (ValuesPkg.Encode v) = true);
    [|rewrite Hempty in Hmem; discriminate].
  unfold ValuesPkg.Encode.
  apply (Join_mem "=" _ _ (URLPkg.QueryEscape k +:+ "=" +:+ URLPkg.QueryEscape x)).
  - apply in_concat. exists (ValuesPkg.encode_key (k, [x])). split.
    + apply in_map. apply list_elem_of_In.
      rewrite merge_sort_Permutation. now apply elem_of_map_to_list.
    + now left.
  - rewrite mem_byte_append.
    change ("=" +:+ URLPkg.QueryEscape x)
      with (String "=" (URLPkg.QueryEscape x)).
    cbn [mem_byte]. rewrite Ascii.eqb_refl. apply orb_true_r.
Qed.

(** The request that [upload] makes has the query that [upload] has
    encoded. *)
Lemma upload_target_query (uploadURL path : string) (u : URLPkg.URL)
    (r0 : Request) :
  URLPkg.Parse uploadURL = Ok u ->
  http_NewRequestWithContext "POST" (URLPkg.String_ (upload_target u path))
  = Ok r0 ->
  URLPkg.RawQuery (URL r0)
  = ValuesPkg.Encode
      (ValuesPkg.Set_ (ValuesPkg.Query u) "name" (PathPkg.Base path)).
Proof.
  intros Hu Hnew. apply NewRequest_ok in Hnew as (u' & Hu' & ->).
  cbn [URL set_Host URLPkg.RawQuery].
  destruct (Parse_markless _ _ Hu) as [Hs Ho].
  set (q := ValuesPkg.Encode _).
  assert (Hq : q <> "").
  { apply (Encode_nonempty _ "name" (PathPkg.Base path)).
    apply lookup_insert_eq. }
  destruct (String_query_shape u q Hs Ho Hq) as (x & F & Hshape & Hx & HF).
  unfold upload_target in Hu'. fold q in Hu'. rewrite Hshape in Hu'.
  exact (Parse_RawQuery x q F u' Hx (Encode_markless _) Hq HF Hu').
Qed.

(** C7: when the file exists, the request that [upload] sends is a POST
    whose URL has a query in which [name] is the base name of the file,
    whose Content-Type header is the content type given to [upload], and
    whose content length is the size of the file. *)
Theorem upload_request (c : client) (uploadURL path contentType : string)
    (w : World) (size : Z) (req : Request) :
  file_size w path = Ok size ->
  trace (upload c uploadURL path contentType w).2
  = trace w ++ [EvStat path; EvDo req] ->
  Method req = "POST"
  /\ ValuesPkg.Query (URL req) !! "name" = Some [PathPkg.Base path]
  /\ Header req !! "Content-Type" = Some [contentType]
  /\ ContentLength req = size.
Proof.
  intros Hsize Htr.
  destruct (upload_effects c uploadURL path contentType w)
    as [[Htr' _]|(size' & u & r0 & Hsize' & Hu & Hnew & Htr')].
  - rewrite Htr' in Htr. now apply app_one_not_two in Htr.
  - rewrite Htr' in Htr. apply app_inv_head in Htr.
    injection Htr as <-.
    rewrite Hsize in Hsize'. injection Hsize' as <-.
    pose proof (upload_target_query uploadURL path u r0 Hu Hnew) as Hq.
    apply NewRequest_ok in Hnew as (u' & _ & ->).
    cbn [upload_request_for Method URL Header ContentLength set_GetBody
           set_ContentLength Header_Set] in *.
    split; [reflexivity|].
    split; [|split; [apply lookup_insert_eq|reflexivity]].
    unfold ValuesPkg.Query. rewrite Hq.
    apply ParseQuery_Encode_lookup. apply lookup_insert_eq.
Qed.

Lemma upload_request_witness :
  let w := demo_world release_template true in
  let req := demo_upload_request "a.zip" "bin/a.zip" "application/zip" in
  file_size w "bin/a.zip" = Ok 4096
  /\ trace (upload demo_client demo_upload_url "bin/a.zip" "application/zip"
              w).2
     = [EvStat "bin/a.zip"; EvDo req]
  /\ Method req = "POST"
  /\ ValuesPkg.Query (URL req) !! "name" = Some [PathPkg.Base "bin/a.zip"]
  /\ Header req !! "Content-Type" = Some ["application/zip"]
  /\ ContentLength req = 4096.
Proof.
  intros w req. split; [reflexivity|]. split; [reflexivity|].
  exact (upload_request demo_client demo_upload_url "bin/a.zip"
           "application/zip" w 4096 req eq_refl eq_refl).
Defined.

(** ** [path.Clean] on a path of plain segments *)







(** ** [url.Parse] on a rooted path of plain bytes *)




(** ** Resolving the path of the release against the base URL *)









(** ** The request for the release: printing the URL and parsing it again *)

Lemma last_index_missing (c : ascii) (s : string) :
  mem_byte c s = false -> StringsPkg.last_index_nat s (String c "") = None.
Proof.
  induction s as [|a s IH]; [reflexivity|].
  cbn [mem_byte]. intros H. apply orb_false_elim in H as [Hca H].
  cbn [StringsPkg.last_index_nat]. rewrite (IH H), HasPrefix_byte.
  now rewrite Ascii.eqb_sym, Hca.
Qed.





















Section Release.

Variable decode_upload_url : string -> result string.

(** [uploadURL], case by case. *)
Lemma uploadURL_unfold (c : client) (w : World) :
  uploadURL decode_upload_url c w
  = match URLPkg.URL_Parse (baseURL c)
            (PathPkg.Join ["/repos"; repo c; "releases/tags"; ref c]) with
    | Err err => (Err ("parse url: " +:+ err), w)
    | Ok u =>
        match http_NewRequestWithContext "GET" (URLPkg.String_ u) with
        | Err err => (Err ("creating request: " +:+ err), w)
        | Ok r0 =>
            let req := lookup_request_for c r0 in
            (match server w (trace w) req with
             | Err err => Err ("do request: " +:+ err)
             | Ok resp =>
                 if StatusCode resp =? StatusOK then
                   match decode_upload_url (Body resp) with
                   | Err err => Err ("decoding response: " +:+ err)
                   | Ok tmpl =>
                       Ok (if 0 <=? StringsPkg.Index tmpl "{"
                           then StringsPkg.slice_to tmpl
                                  (StringsPkg.Index tmpl "{")
                           else tmpl)
                   end
                 else Err ("unexpected status code: " +:+ Status resp)
             end,
             log (EvDo req) w)
        end
    end.
Proof.
  unfold uploadURL, bind, http_Do, ret.
  destruct (URLPkg.URL_Parse _ _) as [u|e]; [|reflexivity].
  destruct (http_NewRequestWithContext _ _) as [r0|e]; [|reflexivity].
  fold (lookup_request_for c r0). cbv zeta.
  destruct (server w (trace w) _) as [resp|e]; [|reflexivity].
  destruct (StatusCode resp =? StatusOK); [|reflexivity].
  destruct (decode_upload_url (Body resp)); reflexivity.
Qed.

(** [uploadURL] sends at most one request, and returns a URL only after a
    response of status 200 to it. *)
Lemma uploadURL_ok (c : client) (w : World) (url : string) :
  (uploadURL decode_upload_url c w).1 = Ok url ->
  exists req resp,
    trace (uploadURL decode_upload_url c w).2 = trace w ++ [EvDo req]
    /\ server w (trace w) req = Ok resp
    /\ StatusCode resp = StatusOK.
Proof.
  rewrite uploadURL_unfold.
  destruct (URLPkg.URL_Parse _ _) as [u|e]; [|discriminate].
  destruct (http_NewRequestWithContext _ _) as [r0|e]; [|discriminate].
  cbn [fst snd trace log].
  destruct (server w (trace w) _) as [resp|e] eqn:Hdo; [|discriminate].
  destruct (StatusCode resp =? StatusOK) eqn:Hst; [|discriminate].
  intros _. eexists _, resp. split; [reflexivity|].
  split; [exact Hdo|now apply Z.eqb_eq].
Qed.


End Release.



(** A base URL that ends in an empty port: the request goes to the host
    without the colon. *)
Example uploadURL_empty_port :
  URLPkg.Parse "https://api.github.com:" = Ok (baseURL empty_port_client)
  /\ URLPkg.String_ (baseURL empty_port_client) = "https://api.github.com:"
  /\ map (fun req => URLPkg.String_ (URL req))
       (requests
          (trace (uploadURL bare_decoder empty_port_client
                    (demo_world release_template true)).2))
     = ["https://api.github.com/repos/google/log4jscanner/releases/tags/v1.0"].
Proof. vm_compute. repeat split. Qed.

(** ** The whole run *)

Section Run.

Variable decode_upload_url : string -> result string.

(** Once the client is configured, the release looked up and the
    directory read, [main] is the loop over the entries: it returns when
    the loop runs to its end and ends in [log.Fatalf] when an upload
    fails. *)
Lemma main_runs_loop (w : World) (c : client) (url : string)
    (entries : list DirEntry) :
  clientFromEnv (os_Getenv w) = Ok c ->
  (uploadURL decode_upload_url c w).1 = Ok url ->
  dir_entries w binDir = Ok entries ->
  let w1 := log (EvReadDir binDir) (uploadURL decode_upload_url c w).2 in
  main decode_upload_url w
  = (match (uploadEntries c url entries w1).1 with
     | Some msg => Fatal msg
     | None => Returned
     end,
     (uploadEntries c url entries w1).2).
Proof.
  intros Hc Hurl Hdir. unfold main. rewrite Hc.
  unfold bind at 1.
  destruct (uploadURL decode_upload_url c w) as [r w0] eqn:Hup.
  simpl in Hurl. subst r.
  assert (Hsame : dir_entries w0 binDir = dir_entries w binDir).
  { revert Hup. rewrite uploadURL_unfold.
    destruct (URLPkg.URL_Parse _ _); [|now intros [= _ <-]].
    destruct (http_NewRequestWithContext _ _); now intros [= _ <-]. }
  unfold bind, os_ReadDir, ret. rewrite Hsame, Hdir. simpl.
  destruct (uploadEntries c url entries _) as [[msg|] w2]; reflexivity.
Qed.

End Run.

(** The listing a.zip, b.tar.gz, c.txt, d/ from the environment to the
    last upload. *)
Example main_demo :
  let run := main bare_decoder (empty_files_world true) in
  run.1 = Returned
  /\ trace run.2
     = [EvDo demo_lookup_request;
        EvReadDir "./bin";
        EvStat "bin/a.zip";
        EvDo (empty_upload_request "a.zip" "bin/a.zip" "application/zip");
        EvStat "bin/b.tar.gz";
        EvDo (empty_upload_request "b.tar.gz" "bin/b.tar.gz"
                "application/gzip")].
Proof. vm_compute. split; reflexivity. Qed.

Example main_demo_refused :
  let run := main bare_decoder (empty_files_world false) in
  run.1
  = Fatal ("upload file a.zip: unexpected status code " +:+ demo_upload_url
           +:+ "?name=a.zip: 422 Unprocessable Entity: already_exists")
  /\ trace run.2
     = [EvDo demo_lookup_request;
        EvReadDir "./bin";
        EvStat "bin/a.zip";
        EvDo (empty_upload_request "a.zip" "bin/a.zip" "application/zip")].
Proof. vm_compute. split; reflexivity. Qed.

Example main_not_ci :
  main bare_decoder
    (mkWorld shell_env (fun _ => Ok 0) (fun _ => Ok []) (demo_server "" true) [])
  = (Fatal "creating client: not running under github actions",
     mkWorld shell_env (fun _ => Ok 0) (fun _ => Ok []) (demo_server "" true) []).
Proof. reflexivity. Qed.

(** * Further properties *)

(** ** What a run leaves alone *)

Lemma same_outside_refl (w : World) : same_outside w w.
Proof. now repeat split. Qed.

Lemma same_outside_trans (w1 w2 w3 : World) :
  same_outside w1 w2 -> same_outside w2 w3 -> same_outside w1 w3.
Proof.
  intros (H1 & H2 & H3 & H4) (K1 & K2 & K3 & K4).
  repeat split; congruence.
Qed.

Lemma upload_same_outside (c : client) (uploadURL path contentType : string)
    (w : World) :
  same_outside w (upload c uploadURL path contentType w).2.
Proof.
  rewrite upload_unfold.
  destruct (file_size w path); [|now repeat split].
  destruct (URLPkg.Parse uploadURL); [|now repeat split].
  destruct (http_NewRequestWithContext _ _); now repeat split.
Qed.

Lemma uploadEntries_same_outside (c : client) (url : string)
    (entries : list DirEntry) (w : World) :
  same_outside w (uploadEntries c url entries w).2.
Proof.
  revert w. induction entries as [|e entries IH]; intros w.
  - apply same_outside_refl.
  - destruct (asset e) as [[p ct]|] eqn:Ha.
    + rewrite (uploadEntries_asset c url e entries p ct w Ha).
      pose proof (upload_same_outside c url p ct w) as Hup.
      destruct (upload c url p ct w).1; [exact Hup|].
      eapply same_outside_trans; [exact Hup|apply IH].
    + rewrite (uploadEntries_skip c url e entries Ha). apply IH.
Qed.

(** ** More on one upload *)

(** X1: [upload] stats the file and then sends at most one request; the
    request has no body of its own but a [GetBody] that opens the file,
    and exactly three headers: Authorization, which is "token: "
    followed by the token of the client, Accept and Content-Type. *)
Theorem upload_request_headers (c : client)
    (uploadURL path contentType : string) (w : World) :
  let w' := (upload c uploadURL path contentType w).2 in
  trace w' = trace w ++ [EvStat path]
  \/ exists req,
      trace w' = trace w ++ [EvStat path; EvDo req]
      /\ Header req
         = <["Content-Type" := [contentType]]>
             (<["Accept" := ["application/vnd.github.v3+json"]]>
                (<["Authorization" := ["token: " +:+ token c]]> ∅))
      /\ ReqBody req = None
      /\ GetBody req = Some path.
Proof.
  rewrite upload_unfold.
  destruct (file_size w path) as [size|e]; [|now left].
  destruct (URLPkg.Parse uploadURL) as [u|e]; [|now left].
  destruct (http_NewRequestWithContext _ _) as [r0|e] eqn:Hnew; [|now left].
  apply NewRequest_ok in Hnew as (u' & _ & ->).
  right. eexists. cbn [snd trace log]. rewrite <- app_assoc.
  split; [reflexivity|]. repeat split.
Qed.

(** X2: when the file exists but the upload URL does not parse, [upload]
    returns the error of the parser after "parse url: " and sends
    nothing: the stat is all it has done. *)
Theorem upload_bad_url (c : client) (uploadURL path contentType : string)
    (w : World) (size : Z) (e : string) :
  file_size w path = Ok size ->
  URLPkg.Parse uploadURL = Err e ->
  (upload c uploadURL path contentType w).1 = Some ("parse url: " +:+ e)
  /\ trace (upload c uploadURL path contentType w).2
     = trace w ++ [EvStat path].
Proof.
  intros Hsize Hparse. rewrite upload_unfold, Hsize, Hparse. now split.
Qed.

Lemma upload_bad_url_witness :
  let w := demo_world release_template true in
  file_size w "bin/a.zip" = Ok 4096
  /\ URLPkg.Parse "https://uploads.github.com/%zz/assets"
     = Err ("parse " +:+ URLPkg.quote "https://uploads.github.com/%zz/assets"
            +:+ ": invalid URL escape " +:+ URLPkg.quote "%zz")
  /\ (upload demo_client "https://uploads.github.com/%zz/assets" "bin/a.zip"
        contentTypeZIP w).1
     = Some ("parse url: parse "
             +:+ URLPkg.quote "https://uploads.github.com/%zz/assets"
             +:+ ": invalid URL escape " +:+ URLPkg.quote "%zz")
  /\ trace (upload demo_client "https://uploads.github.com/%zz/assets"
              "bin/a.zip" contentTypeZIP w).2
     = [EvStat "bin/a.zip"].
Proof.
  intros w. split; [reflexivity|]. split; [reflexivity|].
  exact (upload_bad_url demo_client "https://uploads.github.com/%zz/assets"
           "bin/a.zip" contentTypeZIP w 4096 _ eq_refl eq_refl).
Defined.

(** X3: once the request is sent, [upload] fails with the error of the
    HTTP client after "do request: " when there is no response, and,
    when the response has a status other than 201, with "unexpected
    status code " followed by the URL that [upload] has built (the
    upload URL with [name] set, as [String] prints it), the status text
    and the whole body of the response, separated by ": ". *)
Theorem upload_failures (c : client)
    (uploadURL path contentType : string) (w : World) (req : Request) :
  trace (upload c uploadURL path contentType w).2
  = trace w ++ [EvStat path; EvDo req] ->
  let r := (upload c uploadURL path contentType w).1 in
  (forall e,
      server w (trace w ++ [EvStat path]) req = Err e ->
      r = Some ("do request: " +:+ e))
  /\ (forall resp,
         server w (trace w ++ [EvStat path]) req = Ok resp ->
         StatusCode resp <> StatusCreated ->
         exists u,
           URLPkg.Parse uploadURL = Ok u
           /\ r = Some ("unexpected status code "
                        +:+ URLPkg.String_ (upload_target u path) +:+ ": "
                        +:+ Status resp +:+ ": " +:+ Body resp)).
Proof.
  rewrite upload_unfold.
  destruct (file_size w path) as [size|e0];
    [|intros H; now apply app_one_not_two in H].
  destruct (URLPkg.Parse uploadURL) as [u|e0];
    [|intros H; now apply app_one_not_two in H].
  destruct (http_NewRequestWithContext _ _) as [r0|e0];
    [|intros H; now apply app_one_not_two in H].
  cbn [fst snd trace log]. intros Htr.
  apply app_one_two in Htr. inversion Htr as [Hreq]. rewrite Hreq.
  clear Htr Hreq. split.
  - intros e ->. reflexivity.
  - intros resp -> Hst. apply Z.eqb_neq in Hst. rewrite Hst. now exists u.
Qed.

Lemma upload_failures_witness :
  let req := demo_upload_request "a.zip" "bin/a.zip" "application/zip" in
  trace (upload demo_client demo_upload_url "bin/a.zip" "application/zip"
           unreachable_world).2
  = [EvStat "bin/a.zip"; EvDo req]
  /\ server unreachable_world [EvStat "bin/a.zip"] req
     = Err "dial tcp: connection refused"
  /\ (upload demo_client demo_upload_url "bin/a.zip" "application/zip"
        unreachable_world).1
     = Some "do request: dial tcp: connection refused".
Proof.
  intros req. split; [reflexivity|]. split; [reflexivity|].
  exact (proj1 (upload_failures demo_client demo_upload_url "bin/a.zip"
                  "application/zip" unreachable_world req eq_refl)
           _ eq_refl).
Defined.

(** ** The round trip of the query parameters *)

Lemma Add_lookup (m : gmap string (list string)) (k v k' : string) :
  ValuesPkg.Add m k v !! k'
  = if decide (k = k') then Some (default [] (m !! k) ++ [v]) else m !! k'.
Proof. unfold ValuesPkg.Add. apply lookup_insert. Qed.

Lemma add_values_lookup_eq (m : gmap string (list string)) (k : string)
    (vs : list string) :
  vs <> [] ->
  add_values m (k, vs) !! k = Some (default [] (m !! k) ++ vs).
Proof.
  unfold add_values. cbn [fst snd]. revert m.
  induction vs as [|v vs IH]; intros m Hne; [contradiction|].
  cbn [fold_left]. destruct vs as [|v' vs].
  - cbn [fold_left]. rewrite Add_lookup. now rewrite decide_True.
  - rewrite IH by discriminate. rewrite Add_lookup, decide_True by reflexivity.
    cbn [from_option id]. now rewrite <- app_assoc.
Qed.

Lemma lookup_fold_add_values_some (l : list (string * list string))
    (m : gmap string (list string)) (k : string) (vs : list string) :
  NoDup (map fst l) -> (k, vs) ∈ l -> vs <> [] -> m !! k = None ->
  fold_left add_values l m !! k = Some vs.
Proof.
  revert m. induction l as [|kv l IH]; intros m Hnd Hin Hne Hm.
  - now apply elem_of_nil in Hin.
  - simpl in *. apply NoDup_cons in Hnd as [Hkv Hnd].
    apply elem_of_cons in Hin as [<-|Hin].
    + rewrite lookup_fold_add_values_other by exact Hkv.
      rewrite add_values_lookup_eq by exact Hne. now rewrite Hm.
    + assert (Hk : k <> kv.1).
      { intros ->. apply Hkv. apply list_elem_of_fmap. now exists (kv.1, vs). }
      apply IH; try assumption. now rewrite lookup_add_values_ne.
Qed.

(** Parsing never leaves a key without a value. *)
Lemma ParseQuery_nonempty (query : string) :
  nonempty_values (ValuesPkg.ParseQuery query).
Proof.
  unfold ValuesPkg.ParseQuery.
  assert (Hgen : forall pieces m,
             nonempty_values m ->
             nonempty_values (fold_left ValuesPkg.parse_piece pieces m)).
  { induction pieces as [|p pieces IH]; intros m Hm; [exact Hm|].
    cbn [fold_left]. apply IH. unfold ValuesPkg.parse_piece.
    destruct (StringsPkg.Contains p ";"); [exact Hm|].
    destruct (String.eqb p ""); [exact Hm|].
    destruct (URLPkg.split p "=" true) as [key value].
    destruct (URLPkg.QueryUnescape key) as [k|]; [|exact Hm].
    destruct (URLPkg.QueryUnescape value) as [v|]; [|exact Hm].
    intros k' vs. rewrite Add_lookup. destruct (decide (k = k')).
    - intros [= <-]. now destruct (default [] (m !! k)).
    - apply Hm. }
  apply Hgen. intros k vs. now rewrite lookup_empty.
Qed.

(** Encoding parameters and parsing them again gives them back. *)
Lemma ParseQuery_Encode_id (m : gmap string (list string)) :
  nonempty_values m ->
  ValuesPkg.ParseQuery (ValuesPkg.Encode m) = m.
Proof.
  intros Hm. apply map_eq. intros k. rewrite ParseQuery_Encode.
  assert (Hperm : merge_sort ValuesPkg.key_le (map_to_list m)
                  ≡ₚ map_to_list m) by apply merge_sort_Permutation.
  destruct (m !! k) as [vs|] eqn:Hk.
  - apply lookup_fold_add_values_some.
    + rewrite Hperm. apply NoDup_fst_map_to_list.
    + rewrite Hperm. now apply elem_of_map_to_list.
    + now apply (Hm k).
    + apply lookup_empty.
  - rewrite lookup_fold_add_values_other; [apply lookup_empty|].
    rewrite Hperm. intros Hin. apply list_elem_of_fmap in Hin as [[k' vs] [-> Hin]].
    apply elem_of_map_to_list in Hin. cbn in Hk. congruence.
Qed.

(** X4: the query of the URL of the upload request is the query of the
    upload URL with [name] set to the base name of the file: the other
    parameters of the upload URL are kept, with all their values, and a
    [name] it already had is replaced. *)
Theorem upload_query_preserved (c : client)
    (uploadURL path contentType : string) (w : World) (u : URLPkg.URL)
    (req : Request) :
  URLPkg.Parse uploadURL = Ok u ->
  trace (upload c uploadURL path contentType w).2
  = trace w ++ [EvStat path; EvDo req] ->
  ValuesPkg.Query (URL req)
  = <["name" := [PathPkg.Base path]]> (ValuesPkg.Query u).
Proof.
  intros Hparse Htr.
  destruct (upload_effects c uploadURL path contentType w)
    as [[Htr' _]|(size & u0 & r0 & _ & Hu & Hnew & Htr')].
  - rewrite Htr' in Htr. now apply app_one_not_two in Htr.
  - rewrite Htr' in Htr. apply app_inv_head in Htr. injection Htr as <-.
    rewrite Hparse in Hu. injection Hu as <-.
    pose proof (upload_target_query uploadURL path u r0 Hparse Hnew) as Hq.
    unfold ValuesPkg.Query at 1.
    cbn [upload_request_for URL set_GetBody set_ContentLength Header_Set].
    rewrite Hq. apply ParseQuery_Encode_id.
    intros k vs. unfold ValuesPkg.Set_. rewrite lookup_insert.
    destruct (decide ("name" = k)); [now intros [= <-]|].
    apply ParseQuery_nonempty.
Qed.

Lemma upload_query_preserved_witness :
  let w := demo_world release_template true in
  exists u req,
    URLPkg.Parse labelled_upload_url = Ok u
    /\ trace (upload demo_client labelled_upload_url "bin/a.zip"
                contentTypeZIP w).2
       = [EvStat "bin/a.zip"; EvDo req]
    /\ URLPkg.String_ (URL req)
       = "https://uploads.github.com/assets?label=nightly+build&name=a.zip"
    /\ ValuesPkg.Query (URL req)
       = <["name" := ["a.zip"]]> (ValuesPkg.Query u).
Proof.
  intros w.
  destruct (URLPkg.Parse labelled_upload_url) as [u|e] eqn:Hu;
    [|vm_compute in Hu; discriminate].
  destruct (http_NewRequestWithContext "POST"
              (URLPkg.String_ (upload_target u "bin/a.zip")))
    as [r0|e] eqn:Hnew;
    [|vm_compute in Hu; injection Hu as <-; vm_compute in Hnew; discriminate].
  pose (req := upload_request_for demo_client r0 "bin/a.zip" contentTypeZIP
                 4096).
  assert (Htr : trace (upload demo_client labelled_upload_url "bin/a.zip"
                         contentTypeZIP w).2
                = trace w ++ [EvStat "bin/a.zip"; EvDo req]).
  { rewrite upload_unfold, Hu, Hnew. cbn [snd trace log file_size w demo_world].
    now rewrite <- app_assoc. }
  pose proof (upload_query_preserved demo_client labelled_upload_url
                "bin/a.zip" contentTypeZIP w u req Hu Htr) as Hq.
  exists u, req. split; [reflexivity|]. split; [exact Htr|].
  split; [|exact Hq].
  vm_compute in Hu. injection Hu as <-. vm_compute in Hnew.
  injection Hnew as <-. vm_compute. reflexivity.
Defined.

(** ** The path and the name of an asset *)

Lemma file_name_spec (s : string) :
  file_name s = true ->
  s <> "" /\ s <> "." /\ s <> ".." /\ mem_byte "/" s = false.
Proof.
  unfold file_name. rewrite !andb_true_iff, !negb_true_iff.
  intros [[[H1 H2] H3] H4]. repeat split; try assumption;
    now apply String.eqb_neq.
Qed.

Lemma list_ascii_append (s t : string) :
  String.list_ascii_of_string (s +:+ t)
  = String.list_ascii_of_string s ++ String.list_ascii_of_string t.
Proof.
  induction s as [|a s IH]; [reflexivity|].
  rewrite append_cons. simpl. now rewrite IH.
Qed.

Lemma mem_byte_In (c : ascii) (s : string) :
  mem_byte c s = false -> ~ In c (String.list_ascii_of_string s).
Proof.
  induction s as [|a s IH]; [now intros _ []|].
  cbn [mem_byte]. intros H. apply orb_false_elim in H as [Hca H].
  simpl. intros [->|Hin]; [now rewrite Ascii.eqb_refl in Hca|now apply IH].
Qed.

(** A path that ends in a file name has no trailing slash to strip. *)
Lemma strip_trailing_slashes_file (dir name : string) :
  name <> "" -> mem_byte "/" name = false ->
  PathPkg.strip_trailing_slashes (dir +:+ name) = dir +:+ name.
Proof.
  intros Hne Hslash. unfold PathPkg.strip_trailing_slashes.
  rewrite list_ascii_append, rev_app_distr.
  destruct (rev (String.list_ascii_of_string name)) as [|a r] eqn:Hrev.
  - apply (f_equal (@rev ascii)) in Hrev. rewrite rev_involutive in Hrev.
    destruct name; [contradiction|discriminate].
  - assert (Ha : Ascii.eqb a "/" = false).
    { apply Ascii.eqb_neq. intros ->.
      apply (mem_byte_In _ _ Hslash), in_rev. rewrite Hrev. now left. }
    rewrite <- app_comm_cons. cbn [PathPkg.strip_trailing_slashes_rev].
    rewrite Ha, app_comm_cons, <- Hrev, <- rev_app_distr, rev_involutive.
    rewrite <- list_ascii_append.
    apply String.string_of_list_ascii_of_string.
Qed.

Lemma Join_binDir (name : string) :
  file_name name = true -> PathPkg.Join [binDir; name] = "bin/" +:+ name.
Proof.
  intros H. destruct (file_name_spec name H) as (H1 & H2 & H3 & Hslash).
  cbn [PathPkg.Join]. change (String.eqb binDir "") with false. cbv iota.
  change (StringsPkg.Join [binDir; name] "/")
    with (String "." (String "/" ("bin" +:+ String "/" name))).
  unfold PathPkg.Clean. change (Ascii.eqb "." "/") with false. cbv iota zeta.
  change (String "." (String "/" ("bin" +:+ String "/" name)))
    with ("." +:+ String "/" ("bin" +:+ String "/" name)).
  rewrite (SplitByte_append "/" "." _ eq_refl).
  rewrite (SplitByte_append "/" "bin" _ eq_refl).
  rewrite (SplitByte_one "/" name Hslash).
  cbn [fold_left].
  change (PathPkg.clean_step false [] ".") with (@nil string).
  change (PathPkg.clean_step false [] "bin") with ["bin"].
  unfold PathPkg.clean_step.
  apply String.eqb_neq in H1, H2, H3. rewrite H1, H2, H3. reflexivity.
Qed.

Lemma Base_binDir (name : string) :
  file_name name = true -> PathPkg.Base ("bin/" +:+ name) = name.
Proof.
  intros H. destruct (file_name_spec name H) as (H1 & _ & _ & Hslash).
  unfold PathPkg.Base.
  replace (String.eqb ("bin/" +:+ name) "") with false by reflexivity.
  rewrite (strip_trailing_slashes_file "bin/" name H1 Hslash).
  change ("bin/" +:+ name)
    with (String "b" (String "i" (String "n" (String "/" name)))).
  cbn [StringsPkg.last_index_nat]. rewrite (last_index_missing "/" name Hslash).
  rewrite (HasPrefix_byte (String "/" name)), Ascii.eqb_refl.
  cbn [StringsPkg.drop]. apply String.eqb_neq in H1. now rewrite H1.
Qed.

(** X5: an entry whose name is a file name (not empty, not a dot
    segment, without a slash) and which is an asset is uploaded from
    the path bin/ followed by its name, and the URL of the request of
    its upload has that very name as its [name] parameter. *)
Theorem asset_uploaded_under_its_name (c : client) (url : string)
    (e : DirEntry) (p ct : string) (w : World) (req : Request) :
  file_name (Name e) = true ->
  asset e = Some (p, ct) ->
  trace (upload c url p ct w).2 = trace w ++ [EvStat p; EvDo req] ->
  p = "bin/" +:+ Name e
  /\ ValuesPkg.Query (URL req) !! "name" = Some [Name e].
Proof.
  intros Hname Ha Htr.
  assert (Hp : p = "bin/" +:+ Name e).
  { apply asset_spec in Ha as (_ & -> & _). now apply Join_binDir. }
  split; [exact Hp|].
  destruct (upload_effects c url p ct w)
    as [[Htr' _]|(size & u & r0 & _ & Hu & Hnew & Htr')].
  - rewrite Htr' in Htr. now apply app_one_not_two in Htr.
  - rewrite Htr' in Htr. apply app_inv_head in Htr. injection Htr as <-.
    pose proof (upload_target_query url p u r0 Hu Hnew) as Hq.
    unfold ValuesPkg.Query.
    cbn [upload_request_for URL set_GetBody set_ContentLength Header_Set].
    rewrite Hq. apply ParseQuery_Encode_lookup.
    unfold ValuesPkg.Set_. rewrite lookup_insert_eq, Hp.
    now rewrite Base_binDir.
Qed.

Lemma asset_uploaded_under_its_name_witness :
  let w := demo_world release_template true in
  let e := mkDirEntry "b.tar.gz" false in
  let req := demo_upload_request "b.tar.gz" "bin/b.tar.gz" "application/gzip" in
  file_name (Name e) = true
  /\ asset e = Some ("bin/b.tar.gz", "application/gzip")
  /\ trace (upload demo_client demo_upload_url "bin/b.tar.gz"
              "application/gzip" w).2
     = [EvStat "bin/b.tar.gz"; EvDo req]
  /\ "bin/b.tar.gz" = "bin/" +:+ Name e
  /\ ValuesPkg.Query (URL req) !! "name" = Some [Name e].
Proof.
  intros w e req. split; [reflexivity|]. split; [reflexivity|].
  split; [reflexivity|].
  exact (asset_uploaded_under_its_name demo_client demo_upload_url e
           "bin/b.tar.gz" "application/gzip" w req eq_refl eq_refl eq_refl).
Defined.

(** ** More on the release lookup *)

(** The truncation of [uploadURL]. *)
Lemma truncated_no_brace (tmpl : string) :
  mem_byte "{"
    (if 0 <=? StringsPkg.Index tmpl "{"
     then StringsPkg.slice_to tmpl (StringsPkg.Index tmpl "{")
     else tmpl) = false.
Proof.
  unfold StringsPkg.Index, StringsPkg.slice_to.
  destruct (mem_byte "{" tmpl) eqn:Hmem.
  - destruct (index_byte_found _ _ Hmem) as (pre & post & _ & Hpre & Hidx & Htk).
    rewrite Hidx.
    replace (0 <=? _) with true by (symmetry; apply Z.leb_le; lia).
    now rewrite Nat2Z.id, Htk.
  - now rewrite (index_byte_missing _ _ Hmem).
Qed.

(** X6: the index that [uploadURL] slices the template at is -1 or the
    position of a [{] inside the template, so the slice is always within
    bounds. *)
Theorem template_index_in_bounds (tmpl : string) :
  let i := StringsPkg.Index tmpl "{" in
  i = -1
  \/ (0 <= i < StringsPkg.len tmpl
      /\ String.get (Z.to_nat i) tmpl = Some "{"%char).
Proof.
  unfold StringsPkg.Index, StringsPkg.len.
  destruct (mem_byte "{" tmpl) eqn:Hmem.
  - destruct (index_byte_found _ _ Hmem) as (pre & post & Hs & _ & Hidx & _).
    rewrite Hidx. right. rewrite Nat2Z.id. split.
    + rewrite Hs, length_append. simpl String.length. lia.
    + rewrite Hs. clear. induction pre as [|a pre IH]; [reflexivity|exact IH].
  - rewrite (index_byte_missing _ _ Hmem). now left.
Qed.

Section MoreLookup.

Variable decode_upload_url : string -> result string.

Lemma uploadURL_same_outside (c : client) (w : World) :
  same_outside w (uploadURL decode_upload_url c w).2.
Proof.
  rewrite uploadURL_unfold.
  destruct (URLPkg.URL_Parse _ _); [|now repeat split].
  destruct (http_NewRequestWithContext _ _); now repeat split.
Qed.

(** X7: a URL that [uploadURL] returns never holds a [{], whatever the
    server sent. *)
Theorem uploadURL_no_brace (c : client) (w : World) (url : string) :
  (uploadURL decode_upload_url c w).1 = Ok url -> mem_byte "{" url = false.
Proof.
  rewrite uploadURL_unfold.
  destruct (URLPkg.URL_Parse _ _) as [u|e]; [|discriminate].
  destruct (http_NewRequestWithContext _ _) as [r0|e]; [|discriminate].
  cbn [fst]. destruct (server w (trace w) _) as [resp|e]; [|discriminate].
  destruct (StatusCode resp =? StatusOK); [|discriminate].
  destruct (decode_upload_url (Body resp)) as [tmpl|e]; [|discriminate].
  intros [= <-]. apply truncated_no_brace.
Qed.

(** X8: [uploadURL] sends nothing or one request, a GET without a body
    whose only headers are Authorization, which is "token: " followed by
    the token of the client, and Accept; it returns a URL only if it has
    sent the request. *)
Theorem uploadURL_lookup_request (c : client) (w : World) :
  let r := (uploadURL decode_upload_url c w).1 in
  let w' := (uploadURL decode_upload_url c w).2 in
  (trace w' = trace w /\ exists e, r = Err e)
  \/ exists req,
      trace w' = trace w ++ [EvDo req]
      /\ Method req = "GET"
      /\ Header req
         = <["Accept" := ["application/vnd.github.v3+json"]]>
             (<["Authorization" := ["token: " +:+ token c]]> ∅)
      /\ ReqBody req = None
      /\ ContentLength req = 0
      /\ GetBody req = None.
Proof.
  rewrite uploadURL_unfold.
  destruct (URLPkg.URL_Parse _ _) as [u|e]; [|left; split; eauto].
  destruct (http_NewRequestWithContext _ _) as [r0|e] eqn:Hnew;
    [|left; split; eauto].
  apply NewRequest_ok in Hnew as (u' & _ & ->).
  right. eexists. cbn [snd trace log]. split; [reflexivity|]. repeat split.
Qed.

(** X9: once the lookup request is sent, [uploadURL] fails with the
    error of the HTTP client after "do request: " when there is no
    response, with the status text of the response after "unexpected
    status code: " when the status is not 200 (the body is then not
    decoded), and with the error of the decoder after "decoding
    response: " when the body of a 200 response does not decode. *)
Theorem uploadURL_failures (c : client) (w : World) (req : Request) :
  trace (uploadURL decode_upload_url c w).2 = trace w ++ [EvDo req] ->
  let r := (uploadURL decode_upload_url c w).1 in
  (forall e, server w (trace w) req = Err e -> r = Err ("do request: " +:+ e))
  /\ (forall resp,
         server w (trace w) req = Ok resp ->
         StatusCode resp <> StatusOK ->
         r = Err ("unexpected status code: " +:+ Status resp))
  /\ (forall resp e,
         server w (trace w) req = Ok resp ->
         StatusCode resp = StatusOK ->
         decode_upload_url (Body resp) = Err e ->
         r = Err ("decoding response: " +:+ e)).
Proof.
  rewrite uploadURL_unfold.
  destruct (URLPkg.URL_Parse _ _) as [u|e];
    [|intros H; now apply not_app_one in H].
  destruct (http_NewRequestWithContext _ _) as [r0|e];
    [|intros H; now apply not_app_one in H].
  cbn [fst snd trace log]. intros Htr. apply app_inv_head in Htr.
  inversion Htr as [Hreq]. rewrite Hreq. clear Htr Hreq. repeat split.
  - intros e ->. reflexivity.
  - intros resp -> Hst. apply Z.eqb_neq in Hst. now rewrite Hst.
  - intros resp e -> Hst Hdec. apply Z.eqb_eq in Hst. now rewrite Hst, Hdec.
Qed.

End MoreLookup.

Lemma uploadURL_no_brace_witness :
  (uploadURL bare_decoder demo_client (demo_world release_template true)).1
  = Ok demo_upload_url
  /\ mem_byte "{" demo_upload_url = false.
Proof.
  split; [reflexivity|].
  exact (uploadURL_no_brace bare_decoder demo_client
           (demo_world release_template true) demo_upload_url eq_refl).
Defined.

Lemma uploadURL_failures_witness :
  trace (uploadURL bare_decoder demo_client no_release_world).2
  = [EvDo demo_lookup_request]
  /\ server no_release_world [] demo_lookup_request
     = Ok (mkResponse 404 "404 Not Found" "Not Found")
  /\ (uploadURL bare_decoder demo_client no_release_world).1
     = Err "unexpected status code: 404 Not Found".
Proof.
  split; [reflexivity|]. split; [reflexivity|].
  apply (proj1 (proj2 (uploadURL_failures bare_decoder demo_client
                         no_release_world demo_lookup_request eq_refl))
           (mkResponse 404 "404 Not Found" "Not Found") eq_refl).
  discriminate.
Defined.

(** ** More on the loop over the directory entries *)

(** X10: a listing without an asset (an empty directory, or one that
    holds only subdirectories and other files) makes the loop return at
    once: nothing is stat'd and nothing is sent. *)
Theorem uploadEntries_nothing_to_upload (c : client) (url : string)
    (entries : list DirEntry) (w : World) :
  assets entries = [] -> uploadEntries c url entries w = (None, w).
Proof.
  induction entries as [|e entries IH]; [reflexivity|].
  unfold assets. cbn [omap list_omap]. fold (assets entries).
  destruct (asset e) as [a|] eqn:Ha; cbn [option_bind]; [discriminate|].
  intros H. rewrite (uploadEntries_skip c url e entries Ha). now apply IH.
Qed.

Lemma uploadEntries_nothing_to_upload_witness :
  assets plain_listing = []
  /\ uploadEntries demo_client demo_upload_url plain_listing
       (demo_world release_template true)
     = (None, demo_world release_template true).
Proof.
  split; [reflexivity|].
  exact (uploadEntries_nothing_to_upload demo_client demo_upload_url
           plain_listing (demo_world release_template true) eq_refl).
Defined.

Lemma all_answered_app (status : Z) srv (hist t1 t2 : list event) :
  all_answered status srv hist (t1 ++ t2)
  = all_answered status srv hist t1
    && all_answered status srv (hist ++ t1) t2.
Proof.
  revert hist. induction t1 as [|e t1 IH]; intros hist.
  - simpl. now rewrite app_nil_r.
  - rewrite <- app_comm_cons. cbn [all_answered].
    destruct e; rewrite IH, <- app_assoc; cbn [app];
      try reflexivity.
    now rewrite andb_assoc.
Qed.

(** An upload that returns nil has sent one request, answered 201. *)
Lemma upload_nil_created (c : client) (url p ct : string) (w : World) :
  (upload c url p ct w).1 = None ->
  exists t,
    trace (upload c url p ct w).2 = trace w ++ t
    /\ all_answered StatusCreated (server w) (trace w) t = true.
Proof.
  rewrite upload_unfold.
  destruct (file_size w p) as [size|e]; [|discriminate].
  destruct (URLPkg.Parse url) as [u|e]; [|discriminate].
  destruct (http_NewRequestWithContext _ _) as [r0|e]; [|discriminate].
  cbn [fst snd trace log].
  destruct (server w (trace w ++ [EvStat p]) _) as [resp|e] eqn:Hsrv;
    [|discriminate].
  destruct (StatusCode resp =? StatusCreated) eqn:Hst; [|discriminate].
  intros _. eexists [EvStat p; EvDo _]. split; [now rewrite <- app_assoc|].
  cbn [all_answered]. now rewrite Hsrv, Hst.
Qed.

(** When the loop runs to its end, every request it has sent was
    answered with status 201. *)
Lemma uploadEntries_created (c : client) (url : string)
    (entries : list DirEntry) (w : World) :
  (uploadEntries c url entries w).1 = None ->
  exists t,
    trace (uploadEntries c url entries w).2 = trace w ++ t
    /\ all_answered StatusCreated (server w) (trace w) t = true.
Proof.
  revert w. induction entries as [|e entries IH]; intros w.
  - intros _. exists []. split; [now rewrite app_nil_r|reflexivity].
  - destruct (asset e) as [[p ct]|] eqn:Ha.
    + rewrite (uploadEntries_asset c url e entries p ct w Ha).
      destruct (upload c url p ct w).1 as [err|] eqn:Hup; [discriminate|].
      intros Hnone.
      destruct (upload_nil_created c url p ct w Hup) as (t1 & Ht1 & Ha1).
      destruct (IH _ Hnone) as (t2 & Ht2 & Ha2).
      destruct (upload_same_outside c url p ct w) as (_ & _ & _ & Hsrv).
      exists (t1 ++ t2). split.
      * now rewrite Ht2, Ht1, <- app_assoc.
      * rewrite all_answered_app, Ha1, <- Ht1, <- Hsrv. exact Ha2.
    + rewrite (uploadEntries_skip c url e entries Ha). apply IH.
Qed.

(** Every event of one upload is an event of the loop. *)
Lemma upload_events (c : client) (url p ct : string) (w : World) :
  exists t,
    trace (upload c url p ct w).2 = trace w ++ t
    /\ Forall (upload_event c url) t.
Proof.
  rewrite upload_unfold.
  destruct (file_size w p) as [size|e];
    [|exists [EvStat p]; split; [reflexivity|now repeat constructor]].
  destruct (URLPkg.Parse url) as [u|e] eqn:Hu;
    [|exists [EvStat p]; split; [reflexivity|now repeat constructor]].
  destruct (http_NewRequestWithContext _ _) as [r0|e] eqn:Hnew;
    [|exists [EvStat p]; split; [reflexivity|now repeat constructor]].
  eexists [EvStat p; EvDo _]. cbn [snd trace log].
  split; [now rewrite <- app_assoc|].
  pose proof Hnew as Hr0. apply NewRequest_ok in Hr0 as (u' & _ & Hr0).
  repeat constructor.
  - now rewrite Hr0.
  - rewrite Hr0. cbn [upload_request_for Header set_GetBody
                        set_ContentLength Header_Set].
    rewrite lookup_insert_ne by discriminate.
    rewrite lookup_insert_ne by discriminate.
    apply lookup_insert_eq.
  - exists u, p, r0. split; [exact Hu|]. split; [exact Hnew|reflexivity].
Qed.

Lemma uploadEntries_events (c : client) (url : string)
    (entries : list DirEntry) (w : World) :
  exists t,
    trace (uploadEntries c url entries w).2 = trace w ++ t
    /\ Forall (upload_event c url) t.
Proof.
  revert w. induction entries as [|e entries IH]; intros w.
  - exists []. split; [now rewrite app_nil_r|constructor].
  - destruct (asset e) as [[p ct]|] eqn:Ha.
    + rewrite (uploadEntries_asset c url e entries p ct w Ha).
      destruct (upload_events c url p ct w) as (t1 & Ht1 & Hf1).
      destruct (upload c url p ct w).1 as [err|]; [now exists t1|].
      destruct (IH (upload c url p ct w).2) as (t2 & Ht2 & Hf2).
      exists (t1 ++ t2). split; [now rewrite Ht2, Ht1, <- app_assoc|].
      now apply Forall_app.
    + rewrite (uploadEntries_skip c url e entries Ha). apply IH.
Qed.

(** ** More on the configuration *)

Lemma check_present_none (env : string -> string) (keys : list string) :
  check_present env keys = None -> Forall (fun k => env k <> "") keys.
Proof.
  induction keys as [|k keys IH]; [constructor|].
  cbn [check_present]. destruct (String.eqb (env k) "") eqn:Hk; [discriminate|].
  intros H. constructor; [now apply String.eqb_neq|now apply IH].
Qed.

(** X11: [clientFromEnv] returns a client exactly when GITHUB_ACTIONS is
    "true", the four other variables are not empty and the base URL
    parses; the client then holds the parsed base URL and the three
    other values as they are. *)
Theorem clientFromEnv_ok_iff (env : string -> string) (c : client) :
  clientFromEnv env = Ok c <->
  env envActions = envActionsValTrue
  /\ Forall (fun k => env k <> "") [envAPIURL; envRef; envRepo; envToken]
  /\ exists u,
      URLPkg.Parse (env envAPIURL) = Ok u
      /\ c = mkClient u (env envRepo) (env envRef) (env envToken).
Proof.
  unfold clientFromEnv. split.
  - destruct (String.eqb (env envActions) envActionsValTrue) eqn:Hci;
      cbn [negb]; [|discriminate].
    apply String.eqb_eq in Hci.
    destruct (check_present env _) as [e|] eqn:Hkeys; [discriminate|].
    apply check_present_none in Hkeys.
    destruct (URLPkg.Parse (env envAPIURL)) as [u|e]; [|discriminate].
    intros [= <-]. repeat split; try assumption. now exists u.
  - intros (Hci & Hkeys & u & Hu & ->).
    rewrite Hci, (check_present_all env _ Hkeys), Hu. reflexivity.
Qed.

(** X12: with the CI flag set and the four variables present, a base URL
    that does not parse makes [clientFromEnv] fail with the error of
    the parser after "parsing base URL: ". *)
Theorem clientFromEnv_bad_base_url (env : string -> string) (e : string) :
  env envActions = envActionsValTrue ->
  Forall (fun k => env k <> "") [envAPIURL; envRef; envRepo; envToken] ->
  URLPkg.Parse (env envAPIURL) = Err e ->
  clientFromEnv env = Err ("parsing base URL: " +:+ e).
Proof.
  intros Hci Hkeys Hu. unfold clientFromEnv.
  now rewrite Hci, (check_present_all env _ Hkeys), Hu.
Qed.

Lemma clientFromEnv_bad_base_url_witness :
  bad_url_env envActions = envActionsValTrue
  /\ clientFromEnv bad_url_env
     = Err ("parsing base URL: parse "
            +:+ URLPkg.quote "https://api github.com"
            +:+ ": invalid character " +:+ URLPkg.quote " "
            +:+ " in host name").
Proof.
  split; [reflexivity|].
  apply (clientFromEnv_bad_base_url bad_url_env).
  - reflexivity.
  - repeat constructor; discriminate.
  - vm_compute. reflexivity.
Defined.

(** X13: [clientFromEnv] looks at five variables only: two environments
    that agree on them give the same result. *)
Theorem clientFromEnv_reads_five (env1 env2 : string -> string) :
  Forall (fun k => env1 k = env2 k)
    [envActions; envAPIURL; envRef; envRepo; envToken] ->
  clientFromEnv env1 = clientFromEnv env2.
Proof.
  intros H. inversion H as [|? ? H1 H']; subst.
  inversion H' as [|? ? H2 H'']; subst.
  inversion H'' as [|? ? H3 H''']; subst.
  inversion H''' as [|? ? H4 H'''']; subst.
  inversion H'''' as [|? ? H5 _]; subst.
  unfold clientFromEnv. cbn [check_present].
  now rewrite H1, H2, H3, H4, H5.
Qed.

Lemma clientFromEnv_reads_five_witness :
  clientFromEnv (fun k => if String.eqb k "HOME" then "/root" else ci_env k)
  = clientFromEnv ci_env.
Proof.
  apply clientFromEnv_reads_five. repeat constructor.
Defined.

(** ** The whole run, phase by phase *)

Section MoreRun.

Variable decode_upload_url : string -> result string.

Lemma main_unfold (w : World) :
  main decode_upload_url w
  = match clientFromEnv (os_Getenv w) with
    | Err err => (Fatal ("creating client: " +:+ err), w)
    | Ok c =>
        let w1 := (uploadURL decode_upload_url c w).2 in
        match (uploadURL decode_upload_url c w).1 with
        | Err err => (Fatal ("creating upload url: " +:+ err), w1)
        | Ok url =>
            let w2 := log (EvReadDir binDir) w1 in
            match dir_entries w1 binDir with
            | Err err => (Fatal ("reading dir ./bin: " +:+ err), w2)
            | Ok entries =>
                (match (uploadEntries c url entries w2).1 with
                 | Some msg => Fatal msg
                 | None => Returned
                 end,
                 (uploadEntries c url entries w2).2)
            end
        end
    end.
Proof.
  unfold main. destruct (clientFromEnv (os_Getenv w)) as [c|e]; [|reflexivity].
  unfold bind at 1.
  destruct (uploadURL decode_upload_url c w) as [[url|e] w1]; [|reflexivity].
  cbn [fst snd]. cbv zeta. unfold bind, os_ReadDir, ret.
  destruct (dir_entries w1 binDir) as [entries|e]; [|reflexivity].
  destruct (uploadEntries c url entries _) as [[msg|] w2]; reflexivity.
Qed.


(** What [uploadURL] leaves in the trace. *)
Lemma uploadURL_sends (c : client) (w : World) :
  let r := (uploadURL decode_upload_url c w).1 in
  let w' := (uploadURL decode_upload_url c w).2 in
  (trace w' = trace w /\ exists e, r = Err e)
  \/ exists req,
      trace w' = trace w ++ [EvDo req]
      /\ Method req = "GET"
      /\ Header req !! "Authorization" = Some ["token: " +:+ token c].
Proof.
  rewrite uploadURL_unfold.
  destruct (URLPkg.URL_Parse _ _) as [u|e]; [|left; split; eauto].
  destruct (http_NewRequestWithContext _ _) as [r0|e] eqn:Hnew;
    [|left; split; eauto].
  apply NewRequest_ok in Hnew as (u' & _ & ->).
  right. eexists. cbn [snd trace log]. repeat split.
Qed.

Lemma upload_event_kind (c : client) (url : string) (t : list event) :
  Forall (upload_event c url) t -> Forall stat_or_post t.
Proof.
  intros H. eapply Forall_impl; [exact H|].
  intros [p|p|req]; cbn; tauto.
Qed.

Lemma Forall_requests (P : Request -> Prop) (Q : event -> Prop)
    (t : list event) :
  (forall req, Q (EvDo req) -> P req) ->
  Forall Q t -> Forall P (requests t).
Proof.
  intros HPQ. induction 1 as [|e t He _ IH]; [constructor|].
  destruct e as [p|p|req]; cbn; try exact IH.
  constructor; [now apply HPQ|exact IH].
Qed.

(** The trace of a whole run, with the client and the upload URL when
    the run got that far. *)
Lemma main_trace (w : World) :
  exists t,
    trace (main decode_upload_url w).2 = trace w ++ t
    /\ (t = []
        \/ exists c get,
            clientFromEnv (os_Getenv w) = Ok c
            /\ Method get = "GET"
            /\ Header get !! "Authorization" = Some ["token: " +:+ token c]
            /\ (t = [EvDo get]
                \/ exists url t',
                    (uploadURL decode_upload_url c w).1 = Ok url
                    /\ t = EvDo get :: EvReadDir binDir :: t'
                    /\ Forall (upload_event c url) t')).
Proof.
  rewrite main_unfold.
  destruct (clientFromEnv (os_Getenv w)) as [c|e] eqn:Hc;
    [|exists []; split; [now rewrite app_nil_r|now left]].
  cbv zeta.
  destruct (uploadURL_sends c w) as [[Htr [e He]]|(get & Htr & Hget & Hauth)].
  - rewrite He. exists []. cbn [snd]. split; [now rewrite app_nil_r|now left].
  - destruct (uploadURL decode_upload_url c w).1 as [url|e] eqn:Hurl.
    2:{ exists [EvDo get]. cbn [snd]. split; [exact Htr|].
        right. exists c, get. repeat split; try assumption. now left. }
    assert (Hfinal : forall t' w2,
      trace w2
      = trace (log (EvReadDir binDir) (uploadURL decode_upload_url c w).2)
        ++ t' ->
      Forall (upload_event c url) t' ->
      exists t,
        trace w2 = trace w ++ t
        /\ (t = []
            \/ exists c0 get0,
                Ok c = Ok c0
                /\ Method get0 = "GET"
                /\ Header get0 !! "Authorization"
                   = Some ["token: " +:+ token c0]
                /\ (t = [EvDo get0]
                    \/ exists url0 t'0,
                        (uploadURL decode_upload_url c0 w).1 = Ok url0
                        /\ t = EvDo get0 :: EvReadDir binDir :: t'0
                        /\ Forall (upload_event c0 url0) t'0))).
    { intros t' w2 Hw2 Hf. exists (EvDo get :: EvReadDir binDir :: t').
      split.
      - rewrite Hw2. cbn [trace log]. rewrite Htr, <- !app_assoc. reflexivity.
      - right. exists c, get. repeat split; try assumption.
        right. exists url, t'. now repeat split. }
    destruct (dir_entries _ binDir) as [entries|e].
    + cbn [snd].
      destruct (uploadEntries_events c url entries
                  (log (EvReadDir binDir) (uploadURL decode_upload_url c w).2))
        as (t' & Ht' & Hf).
      exact (Hfinal t' _ Ht' Hf).
    + cbn [snd]. apply (Hfinal []); [now rewrite app_nil_r|constructor].
Qed.

(** X14: the effects of a run come in this order: nothing; or the GET of
    the release lookup; or that GET, then the listing of "./bin", then
    stats of files and POST requests only. *)
Theorem main_phases (w : World) :
  exists t,
    trace (main decode_upload_url w).2 = trace w ++ t
    /\ (t = []
        \/ exists get,
            Method get = "GET"
            /\ (t = [EvDo get]
                \/ exists t',
                    t = EvDo get :: EvReadDir binDir :: t'
                    /\ Forall stat_or_post t')).
Proof.
  destruct (main_trace w) as (t & Ht & Hcases). exists t. split; [exact Ht|].
  destruct Hcases as [->|(c & get & _ & Hget & _ & Hrest)]; [now left|].
  right. exists get. split; [exact Hget|].
  destruct Hrest as [->|(url & t' & _ & -> & Hf)]; [now left|].
  right. exists t'. split; [reflexivity|].
  exact (upload_event_kind c url t' Hf).
Qed.

(** X15: every request of a run carries the header Authorization with
    the value "token: " followed by the value of GITHUB_TOKEN. *)
Theorem main_requests_authorized (w : World) :
  exists t,
    trace (main decode_upload_url w).2 = trace w ++ t
    /\ Forall (fun req =>
                 Header req !! "Authorization"
                 = Some ["token: " +:+ os_Getenv w envToken])
         (requests t).
Proof.
  destruct (main_trace w) as (t & Ht & Hcases). exists t. split; [exact Ht|].
  destruct Hcases as [->|(c & get & Hc & _ & Hauth & Hrest)]; [constructor|].
  assert (Htok : token c = os_Getenv w envToken).
  { revert Hc. unfold clientFromEnv.
    destruct (negb _); [discriminate|].
    destruct (check_present _ _); [discriminate|].
    destruct (URLPkg.Parse _); [|discriminate].
    now intros [= <-]. }
  rewrite <- Htok.
  destruct Hrest as [->|(url & t' & _ & -> & Hf)].
  - now repeat constructor.
  - change (requests (EvDo get :: EvReadDir binDir :: t'))
      with (get :: requests t').
    constructor; [exact Hauth|].
    apply (Forall_requests _ (upload_event c url)); [|exact Hf].
    intros req (_ & H & _). exact H.
Qed.

(** X16: after a successful lookup, every later request of the run is a
    POST made from the URL that [uploadURL] returned: the URL of the
    request is what [NewRequestWithContext] makes of that upload URL
    with the parameter [name] of its query set for a file, so that all
    assets go to the one upload URL that was looked up. *)
Theorem main_posts_to_upload_url (w : World) (c : client) (url : string) :
  clientFromEnv (os_Getenv w) = Ok c ->
  (uploadURL decode_upload_url c w).1 = Ok url ->
  exists get t',
    trace (main decode_upload_url w).2 = trace w ++ EvDo get :: t'
    /\ Forall (fun req => Method req = "POST" /\ to_upload_url url req)
         (requests t').
Proof.
  intros Hc Hurl.
  destruct (main_trace w) as (t & Ht & Hcases).
  destruct (uploadURL_sends c w) as [[_ [e He]]|(get0 & Htr0 & _)];
    [rewrite He in Hurl; discriminate|].
  assert (Hpre : exists t0, trace (main decode_upload_url w).2
                            = (trace w ++ [EvDo get0]) ++ t0).
  { rewrite main_unfold, Hc. cbv zeta. rewrite Hurl.
    destruct (dir_entries _ binDir) as [entries|e]; cbn [snd].
    - destruct (uploadEntries_events c url entries
                  (log (EvReadDir binDir) (uploadURL decode_upload_url c w).2))
        as (t' & Ht' & _).
      rewrite Ht'. cbn [trace log]. rewrite Htr0.
      eexists. rewrite <- !app_assoc. reflexivity.
    - cbn [trace log]. rewrite Htr0. eexists. reflexivity. }
  destruct Hpre as (t0 & Ht0). rewrite <- app_assoc in Ht0.
  rewrite Ht in Ht0. apply app_inv_head in Ht0. subst t.
  destruct Hcases as [Hnil|(c' & get & Hc' & _ & _ & Hrest)];
    [discriminate|].
  rewrite Hc in Hc'. injection Hc' as <-.
  destruct Hrest as [Hone|(url' & t' & Hurl' & Htt & Hf)].
  - exists get, []. split; [now rewrite Ht, Hone|constructor].
  - rewrite Hurl in Hurl'. injection Hurl' as <-.
    exists get, (EvReadDir binDir :: t'). split; [now rewrite Ht, Htt|].
    change (requests (EvReadDir binDir :: t')) with (requests t').
    apply (Forall_requests _ (upload_event c url)); [|exact Hf].
    intros req (Hm & _ & H). now split.
Qed.

(** X17: without a complete configuration (GITHUB_ACTIONS other than
    "true", one of the four variables empty, or a base URL that does not
    parse) a run ends in [log.Fatalf] with a message that starts with
    "creating client: ", and has no effect at all. *)
Theorem main_needs_config (w : World) :
  os_Getenv w envActions <> envActionsValTrue
  \/ Exists (fun k => os_Getenv w k = "")
       [envAPIURL; envRef; envRepo; envToken]
  \/ (exists e, URLPkg.Parse (os_Getenv w envAPIURL) = Err e) ->
  exists e,
    main decode_upload_url w = (Fatal ("creating client: " +:+ e), w).
Proof.
  intros Hbad. rewrite main_unfold.
  destruct (clientFromEnv (os_Getenv w)) as [c|e] eqn:Hc; [|now exists e].
  exfalso. revert Hc. unfold clientFromEnv.
  destruct (String.eqb (os_Getenv w envActions) envActionsValTrue) eqn:Hci;
    cbn [negb]; [|discriminate].
  apply String.eqb_eq in Hci.
  destruct (check_present _ _) as [e|] eqn:Hkeys; [discriminate|].
  apply check_present_none in Hkeys.
  destruct (URLPkg.Parse _) as [u|e]; [|discriminate].
  intros _. destruct Hbad as [H|[H|[e H]]].
  - contradiction.
  - apply Exists_exists in H. destruct H as (k & Hin & Hk).
    rewrite Forall_forall in Hkeys. exact (Hkeys k Hin Hk).
  - discriminate.
Qed.

(** X18: a run that returns has looked the release up with a request
    answered 200, listed "./bin", and then, for every asset of the
    listing in its order, stat'd its file and sent one request with its
    content type and a [GetBody] that opens its file; each of these
    requests was answered 201. *)
Theorem main_returned (w : World) :
  (main decode_upload_url w).1 = Returned ->
  exists get entries t',
    trace (main decode_upload_url w).2
    = trace w ++ EvDo get :: EvReadDir binDir :: t'
    /\ all_answered StatusOK (server w) (trace w) [EvDo get] = true
    /\ dir_entries w binDir = Ok entries
    /\ stats t' = map fst (assets entries)
    /\ map request_asset (requests t') = map asset_request (assets entries)
    /\ all_answered StatusCreated (server w)
         (trace w ++ [EvDo get; EvReadDir binDir]) t' = true.
Proof.
  rewrite main_unfold.
  destruct (clientFromEnv (os_Getenv w)) as [c|e]; [|discriminate].
  cbv zeta.
  destruct (uploadURL_same_outside decode_upload_url c w)
    as (_ & _ & Hdir & Hsrv).
  destruct (uploadURL decode_upload_url c w).1 as [url|e] eqn:Hurl;
    [|discriminate].
  destruct (uploadURL_ok decode_upload_url c w url Hurl)
    as (get & resp & Htr & Hdo & Hst).
  rewrite Hdir.
  destruct (dir_entries w binDir) as [entries|e]; [|discriminate].
  cbn [fst snd].
  set (w1 := log (EvReadDir binDir) (uploadURL decode_upload_url c w).2).
  destruct (uploadEntries c url entries w1).1 as [msg|] eqn:Hloop;
    [discriminate|].
  intros _.
  destruct (uploadEntries_trace c url entries w1)
    as (t1 & Ht1 & _ & _ & Hall).
  destruct (Hall Hloop) as [Hstats Hreqs].
  destruct (uploadEntries_created c url entries w1 Hloop)
    as (t2 & Ht2 & Hcreated).
  rewrite Ht1 in Ht2. apply app_inv_head in Ht2. subst t2.
  assert (Hw1 : trace w1 = trace w ++ [EvDo get; EvReadDir binDir]).
  { unfold w1. cbn [trace log]. rewrite Htr, <- app_assoc. reflexivity. }
  exists get, entries, t1. repeat split.
  - rewrite Ht1, Hw1, <- app_assoc. reflexivity.
  - cbn [all_answered]. rewrite Hdo, Hst. reflexivity.
  - exact Hstats.
  - exact Hreqs.
  - rewrite <- Hw1, <- Hsrv. exact Hcreated.
Qed.

End MoreRun.

Lemma main_posts_to_upload_url_witness :
  exists get t',
    trace (main bare_decoder (empty_files_world true)).2
    = [] ++ EvDo get :: t'
    /\ Forall (fun req =>
                 Method req = "POST" /\ to_upload_url demo_upload_url req)
         (requests t').
Proof.
  apply (main_posts_to_upload_url bare_decoder
           (empty_files_world true) demo_client demo_upload_url).
  - vm_compute. reflexivity.
  - vm_compute. reflexivity.
Defined.

Lemma main_needs_config_witness :
  exists e,
    main bare_decoder
      (mkWorld shell_env (fun _ => Ok 0) (fun _ => Ok []) no_release_server [])
    = (Fatal ("creating client: " +:+ e),
       mkWorld shell_env (fun _ => Ok 0) (fun _ => Ok []) no_release_server []).
Proof.
  apply (main_needs_config bare_decoder
           (mkWorld shell_env (fun _ => Ok 0) (fun _ => Ok [])
              no_release_server [])).
  left. vm_compute. discriminate.
Defined.

Lemma main_returned_witness :
  exists get entries t',
    trace (main bare_decoder (empty_files_world true)).2
    = [] ++ EvDo get :: EvReadDir binDir :: t'
    /\ all_answered StatusOK (demo_server release_template true) []
         [EvDo get] = true
    /\ Ok demo_listing = Ok entries
    /\ stats t' = map fst (assets entries)
    /\ map request_asset (requests t') = map asset_request (assets entries)
    /\ all_answered StatusCreated (demo_server release_template true)
         ([] ++ [EvDo get; EvReadDir binDir]) t' = true.
Proof.
  apply (main_returned bare_decoder (empty_files_world true)).
  vm_compute. reflexivity.
Defined.
